(** * Verification of [examples/find-jobs-by-skill.py]

    The script is a command-line client of the Job Posting Aggregator API.
    It is embedded here as a shallow model:

    - Python values that cross the JSON boundary are the inductive [pyval];
    - Python strings are byte strings holding the UTF-8 encoding of the text
      (so every literal of the script is the literal of the model);
    - the effects of the script (lines written by [print], HTTP GET requests
      issued through [requests.get], raised exceptions) are threaded by the
      small monad [M]: a trace of events together with an outcome that is
      either a value or a raised exception;
    - the HTTP service and the [requests] library are external: the result of
      a GET request is a variable of the section that holds the script. *)

From Stdlib Require Import String Ascii List ZArith Lia Bool DecimalString.
From Stdlib Require Import Floats.SpecFloat.
Import ListNotations.

Local Open Scope string_scope.
Local Open Scope Z_scope.

(** ** Strings *)

Module Str.

(** The line feed character, written [\n] in the script. *)
Definition nl : string := String (ascii_of_nat 10) EmptyString.

(** [s * n] on a string: [n] copies of [s] (none when [n <= 0]). *)
Fixpoint repeat (s : string) (n : nat) : string :=
  match n with
  | O => EmptyString
  | S k => s ++ repeat s k
  end.

Definition mul (s : string) (n : Z) : string := repeat s (Z.to_nat n).

(** [sep.join(l)] on a list of strings is [String.concat sep l]. *)
Definition join (sep : string) (l : list string) : string :=
  String.concat sep l.

(** Number of occurrences of the byte [c] in [s].  For an ASCII byte such
    as the comma this is the number of occurrences of the character: no
    byte of a multi-byte UTF-8 sequence is below 128. *)
Fixpoint count (c : ascii) (s : string) : nat :=
  match s with
  | EmptyString => O
  | String a r => ((if Ascii.eqb a c then 1 else 0) + count c r)%nat
  end.

(** [p in s]: [p] occurs in [s] at some position. *)
Fixpoint contains (p s : string) : bool :=
  String.prefix p s ||
  match s with
  | EmptyString => false
  | String _ r => contains p r
  end.

(** A byte [10xxxxxx] continues a multi-byte UTF-8 sequence. *)
Definition is_continuation (a : ascii) : bool :=
  let n := nat_of_ascii a in (128 <=? n)%nat && (n <? 192)%nat.

Definition starts_with_continuation (s : string) : bool :=
  match s with
  | EmptyString => false
  | String a _ => is_continuation a
  end.

(** The characters (code points) of a string, each as a one-character
    string: what iterating over a Python [str] yields. *)
Fixpoint chars (s : string) : list string :=
  match s with
  | EmptyString => []
  | String a r =>
      if starts_with_continuation r then
        match chars r with
        | c :: cs => String a c :: cs
        | [] => [String a EmptyString]
        end
      else String a EmptyString :: chars r
  end.

(** [str(z)] for an integer. *)
Definition of_Z (z : Z) : string := NilZero.string_of_int (Z.to_int z).

(** The format specification [{z:2d}]: decimal, right-aligned in a field
    of width two, padded with spaces. *)
Definition format_2d (z : Z) : string :=
  let d := of_Z z in
  repeat " " (2 - String.length d) ++ d.

End Str.

(** ** Python values and exceptions *)

(** Values produced by [response.json()] ([json.loads]): [None], booleans,
    integers, floats (binary64), strings, lists, and dictionaries with string
    keys (in insertion order; a lookup finds the binding of a key). *)
#[warnings="-register-all"]
Inductive pyval : Type :=
| PNone
| PBool (b : bool)
| PInt (z : Z)
| PFloat (f : spec_float)
| PStr (s : string)
| PList (l : list pyval)
| PDict (d : list (string * pyval)).

(** Exception classes: the built-in ones the script can raise by touching a
    value of an unexpected type, and [requests.exceptions]. *)
Inductive exc_class : Type :=
| KeyError | TypeError | ValueError | OSError
| RequestException
| InvalidJSONError | JSONDecodeError
| HTTPError
| ConnectionError | ProxyError | SSLError
| Timeout | ConnectTimeout | ReadTimeout
| URLRequired | TooManyRedirects
| MissingSchema | InvalidSchema | InvalidURL | InvalidProxyURL | InvalidHeader
| ChunkedEncodingError | ContentDecodingError | StreamConsumedError
| RetryError | UnrewindableBodyError.

Definition exc_class_eqb (a b : exc_class) : bool :=
  match a, b with
  | KeyError, KeyError | TypeError, TypeError | ValueError, ValueError
  | OSError, OSError | RequestException, RequestException
  | InvalidJSONError, InvalidJSONError | JSONDecodeError, JSONDecodeError
  | HTTPError, HTTPError | ConnectionError, ConnectionError
  | ProxyError, ProxyError | SSLError, SSLError | Timeout, Timeout
  | ConnectTimeout, ConnectTimeout | ReadTimeout, ReadTimeout
  | URLRequired, URLRequired | TooManyRedirects, TooManyRedirects
  | MissingSchema, MissingSchema | InvalidSchema, InvalidSchema
  | InvalidURL, InvalidURL | InvalidProxyURL, InvalidProxyURL
  | InvalidHeader, InvalidHeader
  | ChunkedEncodingError, ChunkedEncodingError
  | ContentDecodingError, ContentDecodingError
  | StreamConsumedError, StreamConsumedError
  | RetryError, RetryError
  | UnrewindableBodyError, UnrewindableBodyError => true
  | _, _ => false
  end.

(** Direct base classes, as declared by Python and by [requests.exceptions]
    (the library is not part of the repository; [Exception] and above are
    left out, no [except] clause of the script names them). *)
Definition bases (c : exc_class) : list exc_class :=
  match c with
  | KeyError | TypeError | ValueError | OSError => []
  | RequestException => [OSError]
  | InvalidJSONError => [RequestException]
  | JSONDecodeError => [InvalidJSONError; ValueError]
  | HTTPError => [RequestException]
  | ConnectionError => [RequestException]
  | ProxyError => [ConnectionError]
  | SSLError => [ConnectionError]
  | Timeout => [RequestException]
  | ConnectTimeout => [ConnectionError; Timeout]
  | ReadTimeout => [Timeout]
  | URLRequired => [RequestException]
  | TooManyRedirects => [RequestException]
  | MissingSchema => [RequestException; ValueError]
  | InvalidSchema => [RequestException; ValueError]
  | InvalidURL => [RequestException; ValueError]
  | InvalidProxyURL => [InvalidURL]
  | InvalidHeader => [RequestException; ValueError]
  | ChunkedEncodingError => [RequestException]
  | ContentDecodingError => [RequestException]
  | StreamConsumedError => [RequestException; TypeError]
  | RetryError => [RequestException]
  | UnrewindableBodyError => [RequestException]
  end.

(** [issubclass c d], following [bases]; the hierarchy has depth four. *)
Fixpoint issubclass_upto (fuel : nat) (c d : exc_class) : bool :=
  exc_class_eqb c d ||
  match fuel with
  | O => false
  | S k => existsb (fun b => issubclass_upto k b d) (bases c)
  end.

Definition issubclass : exc_class -> exc_class -> bool := issubclass_upto 4.

(** A raised exception: an instance of a class with its message ([str(e)]),
    or the [SystemExit] raised by [sys.exit(code)]. *)
Inductive exn : Type :=
| Exc (c : exc_class) (msg : string)
| SystemExit (code : Z).

Definition isinstance (e : exn) (c : exc_class) : bool :=
  match e with
  | Exc k _ => issubclass k c
  | SystemExit _ => false
  end.

Definition exc_str (e : exn) : string :=
  match e with
  | Exc _ msg => msg
  | SystemExit code => Str.of_Z code
  end.

(** ** Outcomes and the effect monad *)

Inductive outcome (A : Type) : Type :=
| Return (a : A)
| Raise (e : exn).
Arguments Return {A} a.
Arguments Raise {A} e.

(** What the script does to the outside: a call of [print] (its text, the
    line terminator left out) or a GET request. *)
Inductive event : Type :=
| Stdout (text : string)
| HttpGet (url : string) (params : option (list (string * pyval))).

Definition M (A : Type) : Type := (list event * outcome A)%type.

Definition ret {A} (a : A) : M A := ([], Return a).

Definition raise {A} (e : exn) : M A := ([], Raise e).

Definition lift {A} (o : outcome A) : M A := ([], o).

(** [m] run after the events [t] have happened. *)
Definition prepend {A} (t : list event) (m : M A) : M A :=
  let (t', r) := m in ((t ++ t')%list, r).

Definition bind {A B} (m : M A) (f : A -> M B) : M B :=
  match m with
  | (t, Raise e) => (t, Raise e)
  | (t, Return a) => prepend t (f a)
  end.

Notation "x <- m ;; k" := (bind m (fun x => k))
  (at level 61, m at next level, right associativity).
Notation "m ;; k" := (bind m (fun _ => k))
  (at level 61, right associativity).

Definition print (text : string) : M unit := ([Stdout text], Return tt).

(** [try: body except ...]: [handler e] is the suite of the first clause
    that matches [e], or [None] when no clause does and [e] propagates. *)
Definition try_except {A} (body : M A) (handler : exn -> option (M A)) : M A :=
  match body with
  | (t, Return a) => (t, Return a)
  | (t, Raise e) =>
      match handler e with
      | Some h => prepend t h
      | None => (t, Raise e)
      end
  end.

(** [for x in l: body x]. *)
Fixpoint for_each {A} (l : list A) (body : A -> M unit) : M unit :=
  match l with
  | [] => ret tt
  | x :: r => body x ;; for_each r body
  end.

(** The lines written to standard output, and the requests issued. *)
Fixpoint stdout (t : list event) : list string :=
  match t with
  | [] => []
  | Stdout s :: r => s :: stdout r
  | HttpGet _ _ :: r => stdout r
  end.

Fixpoint requests_made (t : list event)
  : list (string * option (list (string * pyval))) :=
  match t with
  | [] => []
  | Stdout _ :: r => requests_made r
  | HttpGet u p :: r => (u, p) :: requests_made r
  end.

(** The exit status of the interpreter: 0 when the script runs to its end,
    the code given to [sys.exit], 1 after an uncaught exception. *)
Definition exit_status {A} (o : outcome A) : Z :=
  match o with
  | Return _ => 0
  | Raise (SystemExit code) => code
  | Raise (Exc _ _) => 1
  end.

(** ** Built-in operations on values received from the service *)

Definition type_name (v : pyval) : string :=
  match v with
  | PNone => "NoneType"
  | PBool _ => "bool"
  | PInt _ => "int"
  | PFloat _ => "float"
  | PStr _ => "str"
  | PList _ => "list"
  | PDict _ => "dict"
  end.

Fixpoint lookup (k : string) (d : list (string * pyval)) : option pyval :=
  match d with
  | [] => None
  | (k', v) :: r => if String.eqb k' k then Some v else lookup k r
  end.

(** [v[k]] for a string key [k]. *)
Definition getitem (v : pyval) (k : string) : outcome pyval :=
  match v with
  | PDict d =>
      match lookup k d with
      | Some x => Return x
      | None => Raise (Exc KeyError ("'" ++ k ++ "'"))
      end
  | PList _ =>
      Raise (Exc TypeError "list indices must be integers or slices, not str")
  | PStr _ =>
      Raise (Exc TypeError "string indices must be integers, not 'str'")
  | _ =>
      Raise (Exc TypeError ("'" ++ type_name v ++ "' object is not subscriptable"))
  end.

(** The truth value tested by [if v:]. *)
Definition truthy (v : pyval) : bool :=
  match v with
  | PNone => false
  | PBool b => b
  | PInt z => negb (z =? 0)
  | PFloat (S754_zero _) => false
  | PFloat _ => true
  | PStr EmptyString => false
  | PStr _ => true
  | PList [] => false
  | PList _ => true
  | PDict [] => false
  | PDict _ => true
  end.

(** [len(v)]. *)
Definition py_len (v : pyval) : outcome Z :=
  match v with
  | PStr s => Return (Z.of_nat (List.length (Str.chars s)))
  | PList l => Return (Z.of_nat (List.length l))
  | PDict d => Return (Z.of_nat (List.length d))
  | _ => Raise (Exc TypeError ("object of type '" ++ type_name v ++ "' has no len()"))
  end.

(** [v[:n]] for a literal [n >= 0].  Slicing a dictionary fails (with a
    [TypeError] up to Python 3.11, a [KeyError] from 3.12 on). *)
Definition slice_to (n : nat) (v : pyval) : outcome pyval :=
  match v with
  | PList l => Return (PList (firstn n l))
  | PStr s => Return (PStr (String.concat EmptyString (firstn n (Str.chars s))))
  | PDict _ => Raise (Exc TypeError "unhashable type: 'slice'")
  | _ =>
      Raise (Exc TypeError ("'" ++ type_name v ++ "' object is not subscriptable"))
  end.

(** The items [for x in v] goes through. *)
Definition py_iter (v : pyval) : outcome (list pyval) :=
  match v with
  | PList l => Return l
  | PStr s => Return (map PStr (Str.chars s))
  | PDict d => Return (map (fun kv => PStr (fst kv)) d)
  | _ => Raise (Exc TypeError ("'" ++ type_name v ++ "' object is not iterable"))
  end.

(** The strings held by a list of values, or the first item that is not a
    string with its index. *)
Fixpoint all_str (i : Z) (l : list pyval) : (Z * pyval) + list string :=
  match l with
  | [] => inr []
  | PStr s :: r =>
      match all_str (i + 1) r with
      | inr ss => inr (s :: ss)
      | inl bad => inl bad
      end
  | v :: _ => inl (i, v)
  end.

(** [sep.join(v)]. *)
Definition py_join (sep : string) (v : pyval) : outcome string :=
  match py_iter v with
  | Raise _ => Raise (Exc TypeError "can only join an iterable")
  | Return items =>
      match all_str 0 items with
      | inr ss => Return (Str.join sep ss)
      | inl (i, bad) =>
          Raise (Exc TypeError ("sequence item " ++ Str.of_Z i
                                ++ ": expected str instance, "
                                ++ type_name bad ++ " found"))
      end
  end.

(** [enumerate(l, start)]. *)
Fixpoint enumerate {A} (l : list A) (start : Z) : list (Z * A) :=
  match l with
  | [] => []
  | x :: r => (start, x) :: enumerate r (start + 1)
  end.

(** ** The data model of the service's answers *)

Module Data.

(** One posting, as the service describes it. *)
Record JobRecord : Type := {
  title : string;
  company : string;
  location : string;
  url : string;
  skills : list string;
  postedDate : string;
  source : string
}.

(** The body of the answer to a search. *)
Record SearchResult : Type := {
  success : bool;
  count : Z;
  jobs : list JobRecord;
  error : option string
}.

Definition JobRecord_to_py (j : JobRecord) : pyval :=
  PDict [("title", PStr (title j));
         ("company", PStr (company j));
         ("location", PStr (location j));
         ("url", PStr (url j));
         ("skills", PList (map PStr (skills j)));
         ("postedDate", PStr (postedDate j));
         ("source", PStr (source j))].

Definition SearchResult_to_py (r : SearchResult) : pyval :=
  PDict ([("success", PBool (success r));
          ("count", PInt (count r));
          ("jobs", PList (map JobRecord_to_py (jobs r)))]
         ++ match error r with
            | Some e => [("error", PStr e)]
            | None => []
            end)%list.

(** The body of the answer to the catalog request. *)
Definition catalog_to_py (ok : bool) (catalog : list string) : pyval :=
  PDict [("success", PBool ok); ("skills", PList (map PStr catalog))].

End Data.

(** ** The [requests] library, as the script uses it *)

(** A response: what [raise_for_status()] and [json()] do on it. *)
Record response : Type := {
  raise_for_status : outcome unit;
  json : outcome pyval
}.

(** ** The script *)

Section Script.

(** [repr] of the values whose text the script never builds itself
    (floats, lists, dictionaries): left to the Python runtime. *)
Variable py_repr : pyval -> string.

(** The answer of the network and the service to [requests.get(url,
    params=params)]: a response, or a raised exception. *)
Variable requests_get :
  string -> option (list (string * pyval)) -> outcome response.

(** [str(v)], the text an f-string puts for [{v}]. *)
Definition py_str (v : pyval) : string :=
  match v with
  | PNone => "None"
  | PBool true => "True"
  | PBool false => "False"
  | PInt z => Str.of_Z z
  | PStr s => s
  | PFloat _ | PList _ | PDict _ => py_repr v
  end.

Definition get (url : string) (params : option (list (string * pyval)))
  : M response :=
  ([HttpGet url params], requests_get url params).

Definition API_BASE : string := "http://localhost:3000/api".

(** The body of the loop of [find_jobs_by_skills] (lines 29 to 38). *)
Definition print_job (job : pyval) : M unit :=
  title <- lift (getitem job "title") ;;
  print ("📋 " ++ py_str title) ;;
  company <- lift (getitem job "company") ;;
  print ("🏢 Company: " ++ py_str company) ;;
  location <- lift (getitem job "location") ;;
  print ("📍 Location: " ++ py_str location) ;;
  url <- lift (getitem job "url") ;;
  print ("🔗 URL: " ++ py_str url) ;;
  skills <- lift (getitem job "skills") ;;
  first5 <- lift (slice_to 5 skills) ;;
  shown <- lift (py_join ", " first5) ;;
  skills' <- lift (getitem job "skills") ;;
  n <- lift (py_len skills') ;;
  print ("🛠️  Skills: " ++ shown ++ (if n >? 5 then "..." else EmptyString)) ;;
  postedDate <- lift (getitem job "postedDate") ;;
  print ("📅 Posted: " ++ py_str postedDate) ;;
  source <- lift (getitem job "source") ;;
  print ("🌐 Source: " ++ py_str source) ;;
  print (Str.mul "-" 60).

(** Lines 24 to 40 of [find_jobs_by_skills]: what is printed for the
    decoded body [data] of the answer. *)
Definition render (skills : list string) (data : pyval) : M unit :=
  success <- lift (getitem data "success") ;;
  if truthy success then
    count <- lift (getitem data "count") ;;
    print ("🎯 Found " ++ py_str count ++ " jobs matching skills: "
           ++ Str.join ", " skills) ;;
    print (Str.mul "=" 60) ;;
    jobs <- lift (getitem data "jobs") ;;
    items <- lift (py_iter jobs) ;;
    for_each items print_job
  else
    error <- lift (getitem data "error") ;;
    print ("❌ Error: " ++ py_str error).

(** The [except] clauses of [find_jobs_by_skills] (lines 42 to 46). *)
Definition search_handlers (e : exn) : option (M unit) :=
  if isinstance e ConnectionError then
    Some (print "❌ Could not connect to the API server." ;;
          print "Make sure the server is running: npm start")
  else if isinstance e RequestException then
    Some (print ("❌ Request failed: " ++ exc_str e))
  else None.

(** [def find_jobs_by_skills(skills, limit=10)]: [limit] is [None] when the
    caller leaves the argument out. *)
Definition find_jobs_by_skills (skills : list string) (limit : option Z)
  : M unit :=
  let limit := match limit with Some l => l | None => 10 end in
  let skills_str := Str.join "," skills in
  let url := API_BASE ++ "/jobs/skills/" ++ skills_str in
  try_except
    (response <- get url (Some [("limit", PInt limit)]) ;;
     lift (raise_for_status response) ;;
     data <- lift (json response) ;;
     render skills data)
    search_handlers.

(** The suite of the [try] of [get_available_skills] (lines 52 to 57): the
    value returned, [None] when the end is reached without a [return]. *)
Definition fetch_catalog : M pyval :=
  response <- get (API_BASE ++ "/skills") None ;;
  lift (raise_for_status response) ;;
  data <- lift (json response) ;;
  success <- lift (getitem data "success") ;;
  if truthy success then lift (getitem data "skills")
  else ret PNone.

(** [def get_available_skills()]; the bare [except:] returns [[]]. *)
Definition get_available_skills : M pyval :=
  try_except fetch_catalog (fun _ => Some (ret (PList []))).

Definition sys_exit (code : Z) : M unit := raise (SystemExit code).

(** Lines 67 to 73 of [main]: the display of the catalog. *)
Definition show_catalog (skills : pyval) : M unit :=
  if truthy skills then
    shown <- lift (slice_to 20 skills) ;;
    items <- lift (py_iter shown) ;;
    for_each (enumerate items 1)
      (fun '(i, skill) =>
         print ("  " ++ Str.format_2d i ++ ". " ++ py_str skill)) ;;
    n <- lift (py_len skills) ;;
    if n >? 20 then
      n' <- lift (py_len skills) ;;
      print ("     ... and " ++ py_str (PInt (n' - 20)) ++ " more")
    else ret tt
  else
    print "  (Could not fetch skills - make sure server is running)".

(** [def main()], with [sys.argv] as its argument. *)
Definition main (argv : list string) : M unit :=
  if (Z.of_nat (List.length argv) <? 2) then
    print "Usage: python find-jobs-by-skill.py <skill1> [skill2] [skill3] ..." ;;
    print (Str.nl ++ "Available skills:") ;;
    skills <- get_available_skills ;;
    show_catalog skills ;;
    print (Str.nl ++ "Example: python find-jobs-by-skill.py JavaScript React Node.js") ;;
    sys_exit 1
  else
    let skills := skipn 1 argv in
    let limit := 20 in
    print "🚀 Job Posting Aggregator - Skills Search" ;;
    print (Str.mul "=" 50) ;;
    find_jobs_by_skills skills (Some limit).

(** Running the script as a program: its trace and its exit status. *)
Definition run (argv : list string) : list event * Z :=
  let (t, o) := main argv in (t, exit_status o).

End Script.

(** ** What a well-formed answer is rendered as *)

Module Render.

Import Data.

(** The header of a successful search (line 25). *)
Definition header (count : Z) (requested : list string) : string :=
  "🎯 Found " ++ Str.of_Z count ++ " jobs matching skills: "
  ++ Str.join ", " requested.

(** The marker appended to a truncated skills list. *)
Definition ellipsis : string := "...".

Definition skills_prefix : string := "🛠️  Skills: ".

(** The skills line of a posting (lines 33 to 35). *)
Definition skills_line (j : JobRecord) : string :=
  skills_prefix ++ Str.join ", " (firstn 5 (skills j))
  ++ (if Z.of_nat (List.length (skills j)) >? 5 then ellipsis
      else EmptyString).

(** The eight lines printed for a posting (lines 29 to 38). *)
Definition job_block (j : JobRecord) : list string :=
  [ "📋 " ++ title j;
    "🏢 Company: " ++ company j;
    "📍 Location: " ++ location j;
    "🔗 URL: " ++ url j;
    skills_line j;
    "📅 Posted: " ++ postedDate j;
    "🌐 Source: " ++ source j;
    Str.mul "-" 60 ].

(** The numbered entries of the catalog display (lines 68 and 69). *)
Definition numbered (entries : list string) : list string :=
  map (fun '(i, skill) => "  " ++ Str.format_2d i ++ ". " ++ skill)
      (enumerate entries 1).

(** The summary line of the catalog display (lines 70 and 71). *)
Definition summary (catalog : list string) : list string :=
  if Z.of_nat (List.length catalog) >? 20
  then ["     ... and " ++ Str.of_Z (Z.of_nat (List.length catalog) - 20)
        ++ " more"]
  else [].

Definition usage_line : string :=
  "Usage: python find-jobs-by-skill.py <skill1> [skill2] [skill3] ...".
Definition available_line : string := Str.nl ++ "Available skills:".
Definition could_not_fetch_line : string :=
  "  (Could not fetch skills - make sure server is running)".
Definition example_line : string :=
  Str.nl ++ "Example: python find-jobs-by-skill.py JavaScript React Node.js".

Definition could_not_connect_lines : list string :=
  ["❌ Could not connect to the API server.";
   "Make sure the server is running: npm start"].

End Render.

(** The two requests of the script. *)
Definition search_url (skills : list string) : string :=
  API_BASE ++ "/jobs/skills/" ++ Str.join "," skills.

Definition catalog_url : string := API_BASE ++ "/skills".


(** A failure of one of the calls into [requests] made for a search: the
    exception that [requests.get], [raise_for_status] or [json] raises. *)
Inductive external_failure (o : outcome response) (e : exn) : Prop :=
| get_fails :
    o = Raise e -> external_failure o e
| status_fails resp :
    o = Return resp -> raise_for_status resp = Raise e -> external_failure o e
| json_fails resp :
    o = Return resp -> raise_for_status resp = Return tt ->
    json resp = Raise e -> external_failure o e.

(** The answer carries the body [data]: the request and the status check
    pass and the body decodes to [data]. *)
Definition answers (o : outcome response) (data : pyval) : Prop :=
  exists resp,
    o = Return resp /\ raise_for_status resp = Return tt
    /\ json resp = Return data.

(** The three ways a search ends that the service and the transport
    foresee: a failure of the transport (an exception of [requests]), a
    result with the success flag set, a result with the flag cleared and an
    error message. *)
Inductive search_outcome (o : outcome response) : Prop :=
| transport_failed e :
    external_failure o e -> isinstance e RequestException = true ->
    search_outcome o
| search_succeeded r :
    answers o (Data.SearchResult_to_py r) -> Data.success r = true ->
    search_outcome o
| search_rejected r msg :
    answers o (Data.SearchResult_to_py r) -> Data.success r = false ->
    Data.error r = Some msg -> search_outcome o.

(** What is printed for a failure of the transport (lines 42 to 46). *)
Definition failure_lines (e : exn) : list string :=
  if isinstance e ConnectionError then Render.could_not_connect_lines
  else ["❌ Request failed: " ++ exc_str e].

(** The display of a catalog of skill names (lines 67 to 73). *)
Definition catalog_lines (catalog : list string) : list string :=
  match catalog with
  | [] => [Render.could_not_fetch_line]
  | _ => Render.numbered (firstn 20 catalog) ++ Render.summary catalog
  end.

(** Occurrences of the byte [c] in the members of a list. *)
Definition count_in_all (c : ascii) (l : list string) : nat :=
  fold_right (fun s n => (Str.count c s + n)%nat) O l.

(** The pieces of [s] between the occurrences of the byte [c]: what
    [s.split(c)] gives. *)
Fixpoint split (c : ascii) (s : string) : list string :=
  match s with
  | EmptyString => [EmptyString]
  | String a r =>
      if Ascii.eqb a c then EmptyString :: split c r
      else match split c r with
           | h :: t => String a h :: t
           | [] => [String a EmptyString]
           end
  end.

(** A computation that issues no request. *)
Definition quiet {A} (m : M A) : Prop := requests_made (fst m) = [].

(** An outcome that is not the [SystemExit] of [sys.exit]. *)
Definition no_exit {A} (o : outcome A) : Prop :=
  match o with
  | Raise (SystemExit _) => False
  | _ => True
  end.

(** An outcome that no [except] clause of [find_jobs_by_skills] catches. *)
Definition uncaught {A} (o : outcome A) : Prop :=
  match o with
  | Raise e => search_handlers e = None
  | Return _ => True
  end.

(** A posting as the service sends it, with the value [skills_value] under
    the key [skills] ([Data.JobRecord_to_py j] is [job_dict j] of the list of
    the skills of [j]). *)
Definition job_dict (j : Data.JobRecord) (skills_value : pyval) : pyval :=
  PDict [("title", PStr (Data.title j));
         ("company", PStr (Data.company j));
         ("location", PStr (Data.location j));
         ("url", PStr (Data.url j));
         ("skills", skills_value);
         ("postedDate", PStr (Data.postedDate j));
         ("source", PStr (Data.source j))].

(** The first four lines of the block of a posting (lines 29 to 32). *)
Definition job_block_head (j : Data.JobRecord) : list string :=
  firstn 4 (Render.job_block j).

(** The header of a successful search for a count of any type (line 25). *)
Definition header_of (py_repr : pyval -> string) (count : pyval)
    (requested : list string) : string :=
  "🎯 Found " ++ py_str py_repr count ++ " jobs matching skills: "
  ++ Str.join ", " requested.

(** ** Sample inputs *)

Module Samples.

(** A service whose body cannot be decoded, with a [requests] older than
    2.27: [json()] raises the [ValueError] of the [json] module. *)
Definition undecodable
  : string -> option (list (string * pyval)) -> outcome response :=
  fun _ _ =>
    Return {| raise_for_status := Return tt;
              json := Raise (Exc ValueError "Expecting value") |}.

(** A runtime whose [repr] is never looked at. *)
Definition no_repr (_ : pyval) : string := "?".

(** A service that answers every request with the body [data]. *)
Definition serving (data : pyval)
  : string -> option (list (string * pyval)) -> outcome response :=
  fun _ _ => Return {| raise_for_status := Return tt; json := Return data |}.

(** A service that cannot be reached. *)
Definition unreachable
  : string -> option (list (string * pyval)) -> outcome response :=
  fun _ _ => Raise (Exc ConnectionError "Connection refused").

(** A service that answers with the status 500. *)
Definition failing
  : string -> option (list (string * pyval)) -> outcome response :=
  fun _ _ =>
    Return {| raise_for_status :=
                Raise (Exc HTTPError "500 Server Error: Internal Server Error");
              json := Raise (Exc JSONDecodeError "Expecting value") |}.

Definition backend_job : Data.JobRecord :=
  {| Data.title := "Backend Engineer"; Data.company := "Acme";
     Data.location := "Remote"; Data.url := "http://x";
     Data.skills := ["Python"; "SQL"];
     Data.postedDate := "2024-01-01"; Data.source := "example" |}.

Definition fullstack_job : Data.JobRecord :=
  {| Data.title := "Full-stack Developer"; Data.company := "Initech";
     Data.location := "Cairo"; Data.url := "http://y";
     Data.skills := ["JavaScript"; "React"; "Node.js"; "SQL"; "Docker";
                     "AWS"];
     Data.postedDate := "2024-02-02"; Data.source := "example" |}.

Definition one_match : Data.SearchResult :=
  {| Data.success := true; Data.count := 1;
     Data.jobs := [backend_job]; Data.error := None |}.

(** A catalog of [n] entries. *)
Definition catalog (n : nat) : list string := List.repeat "Go" n.

(** A service whose answer to a search is a JSON object that does not
    have the fields of a search result. *)
Definition off_format
  : string -> option (list (string * pyval)) -> outcome response :=
  serving (PDict [("message", PStr "ok")]).

Definition rejected : Data.SearchResult :=
  {| Data.success := false; Data.count := 3;
     Data.jobs := [backend_job]; Data.error := Some "Database unavailable" |}.

End Samples.

(** ** Lemmas on strings *)

Section StringLemmas.

Lemma count_app c a b :
  Str.count c (a ++ b) = (Str.count c a + Str.count c b)%nat.
Proof.
  induction a as [|x a IH]; simpl; [reflexivity|].
  rewrite IH. lia.
Qed.

Lemma count_join c sep x l :
  Str.count c (Str.join sep (x :: l))
  = (count_in_all c (x :: l) + List.length l * Str.count c sep)%nat.
Proof.
  revert x. induction l as [|y l IH]; intros x.
  - simpl. lia.
  - change (Str.join sep (x :: y :: l))
      with (x ++ sep ++ Str.join sep (y :: l)).
    rewrite !count_app, IH. simpl. lia.
Qed.

Lemma count_in_all_zero c l :
  Forall (fun s => Str.count c s = O) l -> count_in_all c l = O.
Proof.
  induction 1 as [|s l Hs _ IH]; simpl; [reflexivity|].
  rewrite Hs, IH. reflexivity.
Qed.

Lemma append_nil_r s : s ++ EmptyString = s.
Proof. induction s as [|a s IH]; simpl; [reflexivity | now rewrite IH]. Qed.

Lemma prefix_app p s : String.prefix p (p ++ s) = true.
Proof.
  induction p as [|a p IH]; simpl.
  - destruct s; reflexivity.
  - destruct (ascii_dec a a) as [_|N]; [exact IH | contradiction].
Qed.

Lemma contains_here p s : Str.contains p (p ++ s) = true.
Proof.
  destruct p as [|a p].
  - simpl. destruct s; reflexivity.
  - change (Str.contains (String a p) (String a p ++ s))
      with (String.prefix (String a p) (String a p ++ s)
            || Str.contains (String a p) (p ++ s)).
    rewrite prefix_app. reflexivity.
Qed.

Lemma contains_app_r p a s :
  Str.contains p s = true -> Str.contains p (a ++ s) = true.
Proof.
  intros H. induction a as [|x a IH]; simpl; [exact H|].
  rewrite IH. apply orb_true_r.
Qed.

Lemma contains_join p sep l :
  In p l -> Str.contains p (Str.join sep l) = true.
Proof.
  induction l as [|x l IH]; [contradiction|].
  intros [->|Hin].
  - destruct l as [|y l].
    + simpl. rewrite <- (append_nil_r p) at 2. apply contains_here.
    + apply contains_here.
  - destruct l as [|y l]; [contradiction|].
    change (Str.join sep (x :: y :: l))
      with (x ++ sep ++ Str.join sep (y :: l)).
    do 2 apply contains_app_r. exact (IH Hin).
Qed.

Lemma prefix_count c p s :
  String.prefix p s = true -> (Str.count c p <= Str.count c s)%nat.
Proof.
  revert s. induction p as [|a p IH]; intros s H; simpl; [lia|].
  destruct s as [|b s]; [discriminate|]. simpl in H.
  destruct (ascii_dec a b) as [->|]; [|discriminate].
  specialize (IH _ H). simpl. lia.
Qed.

Lemma contains_count c p s :
  Str.contains p s = true -> (Str.count c p <= Str.count c s)%nat.
Proof.
  induction s as [|b s IH]; intros H.
  - destruct p; [simpl; lia | discriminate].
  - change (Str.contains p (String b s))
      with (String.prefix p (String b s) || Str.contains p s) in H.
    apply orb_true_iff in H as [H|H].
    + exact (prefix_count c _ _ H).
    + specialize (IH H). simpl. lia.
Qed.

End StringLemmas.

(** ** Lemmas on the effect monad *)

Section MonadLemmas.

Context {A B : Type}.

Lemma bind_return (t : list event) (a : A) (f : A -> M B) :
  bind (t, Return a) f = ((t ++ fst (f a))%list, snd (f a)).
Proof. unfold bind, prepend. destruct (f a). reflexivity. Qed.

Lemma bind_raise (t : list event) (e : exn) (f : A -> M B) :
  bind (t, Raise e) f = (t, Raise e).
Proof. reflexivity. Qed.

Lemma bind_lift_return (a : A) (f : A -> M B) :
  bind (lift (Return a)) f = f a.
Proof. unfold lift. rewrite bind_return. destruct (f a). reflexivity. Qed.

Lemma bind_lift_raise (e : exn) (f : A -> M B) :
  bind (lift (Raise e)) f = ([], Raise e).
Proof. reflexivity. Qed.

Lemma fst_bind (m : M A) (f : A -> M B) :
  fst (bind m f)
  = match snd m with
    | Return a => (fst m ++ fst (f a))%list
    | Raise _ => fst m
    end.
Proof.
  destruct m as [t [a|e]]; [|reflexivity].
  rewrite bind_return. reflexivity.
Qed.

Lemma snd_bind (m : M A) (f : A -> M B) :
  snd (bind m f)
  = match snd m with
    | Return a => snd (f a)
    | Raise e => Raise e
    end.
Proof.
  destruct m as [t [a|e]]; [|reflexivity].
  rewrite bind_return. reflexivity.
Qed.

End MonadLemmas.

Lemma prepend_nil {A} (m : M A) : prepend [] m = m.
Proof. destruct m. reflexivity. Qed.

Lemma prepend_pair {A} t t' (r : outcome A) :
  prepend t (t', r) = ((t ++ t')%list, r).
Proof. reflexivity. Qed.

Lemma prepend_prepend {A} t t' (m : M A) :
  prepend t (prepend t' m) = prepend (t ++ t') m.
Proof. destruct m. simpl. now rewrite app_assoc. Qed.

Lemma fst_prepend {A} t (m : M A) : fst (prepend t m) = (t ++ fst m)%list.
Proof. destruct m. reflexivity. Qed.

Lemma snd_prepend {A} t (m : M A) : snd (prepend t m) = snd m.
Proof. destruct m. reflexivity. Qed.

Lemma bind_print {B} (s : string) (f : unit -> M B) :
  bind (print s) f = prepend [Stdout s] (f tt).
Proof. reflexivity. Qed.

Lemma stdout_app t1 t2 : stdout (t1 ++ t2) = (stdout t1 ++ stdout t2)%list.
Proof.
  induction t1 as [|[s|u p] t1 IH]; simpl; [reflexivity| |exact IH].
  now rewrite IH.
Qed.

Lemma stdout_map_Stdout l : stdout (map Stdout l) = l.
Proof. induction l as [|s l IH]; simpl; [reflexivity | now rewrite IH]. Qed.

Lemma requests_made_app t1 t2 :
  requests_made (t1 ++ t2) = (requests_made t1 ++ requests_made t2)%list.
Proof.
  induction t1 as [|[s|u p] t1 IH]; simpl; [reflexivity|exact IH|].
  now rewrite IH.
Qed.

Lemma quiet_lift {A} (o : outcome A) : quiet (lift o).
Proof. reflexivity. Qed.

Lemma quiet_ret {A} (a : A) : quiet (ret a).
Proof. reflexivity. Qed.

Lemma quiet_print s : quiet (print s).
Proof. reflexivity. Qed.

Lemma quiet_bind {A B} (m : M A) (f : A -> M B) :
  quiet m -> (forall a, quiet (f a)) -> quiet (bind m f).
Proof.
  unfold quiet. intros Hm Hf. rewrite fst_bind.
  destruct (snd m) as [a|e]; [|exact Hm].
  rewrite requests_made_app, Hm, Hf. reflexivity.
Qed.

Lemma quiet_for_each {A} (l : list A) (body : A -> M unit) :
  (forall a, quiet (body a)) -> quiet (for_each l body).
Proof.
  intros Hb. induction l as [|x l IH]; simpl.
  - apply quiet_ret.
  - apply quiet_bind; [apply Hb | intros _; exact IH].
Qed.

Ltac quiet_steps :=
  repeat first
    [ apply quiet_lift | apply quiet_ret | apply quiet_print
    | apply quiet_bind; [|intro]
    | apply quiet_for_each; intro
    | match goal with
      | |- quiet (if ?b then _ else _) => destruct b
      | |- quiet (let '(_, _) := ?p in _) => destruct p
      end ].

Lemma quiet_print_job py_repr job : quiet (print_job py_repr job).
Proof. unfold print_job. quiet_steps. Qed.

Lemma quiet_render py_repr skills data : quiet (render py_repr skills data).
Proof.
  unfold render. quiet_steps.
Qed.

Lemma quiet_search_handlers e h : search_handlers e = Some h -> quiet h.
Proof.
  unfold search_handlers. intros H.
  destruct (isinstance e ConnectionError);
    [|destruct (isinstance e RequestException)];
    inversion H; subst; reflexivity.
Qed.

Lemma quiet_show_catalog py_repr v : quiet (show_catalog py_repr v).
Proof. unfold show_catalog. quiet_steps. Qed.

(** The outcomes of the built-in operations are never a [SystemExit]. *)
Lemma no_exit_getitem v k : no_exit (getitem v k).
Proof.
  destruct v; simpl; try exact I.
  destruct (lookup k d); exact I.
Qed.

Lemma no_exit_slice_to n v : no_exit (slice_to n v).
Proof. destruct v; exact I. Qed.

Lemma no_exit_py_iter v : no_exit (py_iter v).
Proof. destruct v; exact I. Qed.

Lemma no_exit_py_len v : no_exit (py_len v).
Proof. destruct v; exact I. Qed.

Lemma no_exit_bind {A B} (m : M A) (f : A -> M B) :
  no_exit (snd m) -> (forall a, no_exit (snd (f a))) ->
  no_exit (snd (bind m f)).
Proof.
  intros Hm Hf. rewrite snd_bind.
  destruct (snd m) as [a|e]; [apply Hf | exact Hm].
Qed.

Lemma no_exit_for_each {A} (l : list A) (body : A -> M unit) :
  (forall a, no_exit (snd (body a))) -> no_exit (snd (for_each l body)).
Proof.
  intros Hb. induction l as [|x l IH]; simpl; [exact I|].
  apply no_exit_bind; [apply Hb | intros _; exact IH].
Qed.

Lemma no_exit_show_catalog py_repr v : no_exit (snd (show_catalog py_repr v)).
Proof.
  unfold show_catalog. destruct (truthy v); [|exact I].
  apply no_exit_bind; [apply no_exit_slice_to | intros shown].
  apply no_exit_bind; [apply no_exit_py_iter | intros items].
  apply no_exit_bind.
  - apply no_exit_for_each. intros [i skill]. exact I.
  - intros _. apply no_exit_bind; [apply no_exit_py_len | intros n].
    destruct (n >? 20); [|exact I].
    apply no_exit_bind; [apply no_exit_py_len | intros n']. exact I.
Qed.

Lemma fst_try_except {A} (body : M A) handler :
  fst (try_except body handler)
  = match snd body with
    | Return _ => fst body
    | Raise e =>
        match handler e with
        | Some h => (fst body ++ fst h)%list
        | None => fst body
        end
    end.
Proof.
  destruct body as [t [a|e]]; simpl; [reflexivity|].
  destruct (handler e) as [[t' r]|]; reflexivity.
Qed.

Lemma snd_try_except {A} (body : M A) handler :
  snd (try_except body handler)
  = match snd body with
    | Return a => Return a
    | Raise e =>
        match handler e with
        | Some h => snd h
        | None => Raise e
        end
    end.
Proof.
  destruct body as [t [a|e]]; simpl; [reflexivity|].
  destruct (handler e) as [[t' r]|]; reflexivity.
Qed.

Lemma requests_try_except {A} (body : M A) handler :
  (forall e h, handler e = Some h -> quiet h) ->
  requests_made (fst (try_except body handler)) = requests_made (fst body).
Proof.
  intros Hq. rewrite fst_try_except.
  destruct (snd body) as [a|e]; [reflexivity|].
  destruct (handler e) as [h|] eqn:E; [|reflexivity].
  rewrite requests_made_app, (Hq _ _ E). apply app_nil_r.
Qed.

Lemma requests_get_bind {A} rg url params (f : response -> M A) :
  (forall r, quiet (f r)) ->
  requests_made (fst (bind (get rg url params) f)) = [(url, params)].
Proof.
  intros Hq. rewrite fst_bind. unfold get. simpl.
  destruct (rg url params) as [r|e]; [|reflexivity].
  simpl. rewrite (Hq r). reflexivity.
Qed.

(** [find_jobs_by_skills] issues exactly one request: a GET of the search
    path with the limit as its only parameter. *)
Lemma find_jobs_by_skills_request py_repr rg skills limit :
  requests_made (fst (find_jobs_by_skills py_repr rg skills limit))
  = [(search_url skills,
      Some [("limit", PInt match limit with Some l => l | None => 10 end)])].
Proof.
  unfold find_jobs_by_skills.
  rewrite requests_try_except by apply quiet_search_handlers.
  apply requests_get_bind. intros r.
  apply quiet_bind; [apply quiet_lift | intros _].
  apply quiet_bind; [apply quiet_lift | intros data].
  apply quiet_render.
Qed.

Lemma split_no_sep c x : Str.count c x = O -> split c x = [x].
Proof.
  induction x as [|a x IH]; simpl; [reflexivity|].
  destruct (Ascii.eqb a c); [discriminate|].
  intros H. rewrite (IH H). reflexivity.
Qed.

Lemma split_app_sep c x r :
  Str.count c x = O -> split c (x ++ String c r) = x :: split c r.
Proof.
  induction x as [|a x IH]; simpl.
  - intros _. rewrite Ascii.eqb_refl. reflexivity.
  - destruct (Ascii.eqb a c); [discriminate|].
    intros H. rewrite (IH H). reflexivity.
Qed.

Lemma split_join c x l :
  Forall (fun s => Str.count c s = O) (x :: l) ->
  split c (Str.join (String c EmptyString) (x :: l)) = x :: l.
Proof.
  revert x. induction l as [|y l IH]; intros x H.
  - apply split_no_sep. now inversion H.
  - change (Str.join (String c EmptyString) (x :: y :: l))
      with (x ++ String c (Str.join (String c EmptyString) (y :: l))).
    inversion H; subst.
    rewrite split_app_sep by assumption.
    rewrite IH by assumption. reflexivity.
Qed.

(** ** The query built by [find_jobs_by_skills] *)

(** C1, as amended.  For every non-empty sequence [S] of skill strings and
    every positive limit [L], [find_jobs_by_skills] issues one request: its
    path is the base path followed by the members of [S] joined in their
    order by commas, its parameters are the single entry [limit = L].  The
    joined segment holds [len(S) - 1] commas besides those that occur inside
    the skills; when no skill holds a comma it holds exactly [len(S) - 1]
    commas, and splitting it at the commas gives back [S]. *)
Theorem query_of_skills_and_limit
    py_repr rg (S : list string) (L : Z) :
  S <> [] -> 0 < L ->
  requests_made (fst (find_jobs_by_skills py_repr rg S (Some L)))
  = [(API_BASE ++ "/jobs/skills/" ++ Str.join "," S,
      Some [("limit", PInt L)])]
  /\ Str.count "," (Str.join "," S)
     = (List.length S - 1 + count_in_all "," S)%nat
  /\ (Forall (fun s => Str.count "," s = O) S ->
      Str.count "," (Str.join "," S) = (List.length S - 1)%nat
      /\ split "," (Str.join "," S) = S).
Proof.
  intros HS _. split; [apply find_jobs_by_skills_request|].
  destruct S as [|x l]; [contradiction|].
  assert (Hc : Str.count "," (Str.join "," (x :: l))
               = (List.length (x :: l) - 1 + count_in_all "," (x :: l))%nat).
  { rewrite count_join. simpl. lia. }
  split; [exact Hc|].
  intros Hno. split.
  - rewrite Hc, (count_in_all_zero _ _ Hno). lia.
  - apply (split_join ","%char). exact Hno.
Qed.

Lemma query_of_skills_and_limit_witness :
  requests_made
    (fst (find_jobs_by_skills Samples.no_repr Samples.unreachable
            ["JavaScript"; "React"; "Node.js"] (Some 20)))
  = [("http://localhost:3000/api/jobs/skills/JavaScript,React,Node.js",
      Some [("limit", PInt 20)])]
  /\ Str.count "," "JavaScript,React,Node.js" = 2%nat
  /\ split "," "JavaScript,React,Node.js" = ["JavaScript"; "React"; "Node.js"].
Proof.
  destruct (query_of_skills_and_limit Samples.no_repr Samples.unreachable
              ["JavaScript"; "React"; "Node.js"] 20) as (Hreq & _ & Hsplit).
  - discriminate.
  - lia.
  - split; [exact Hreq|].
    apply Hsplit. repeat constructor.
Defined.

(** C1, as stated, fails on a skill that holds a comma: the single skill
    [C,C++] gives a segment with one comma, not [len(S) - 1 = 0]. *)
Lemma comma_inside_a_skill :
  let S := ["C,C++"] in
  S <> []
  /\ requests_made
       (fst (find_jobs_by_skills Samples.no_repr Samples.unreachable S (Some 20)))
     = [("http://localhost:3000/api/jobs/skills/C,C++",
         Some [("limit", PInt 20)])]
  /\ Str.count "," (Str.join "," S) = 1%nat
  /\ Str.count "," (Str.join "," S) <> (List.length S - 1)%nat.
Proof.
  cbv zeta. repeat split; [discriminate | discriminate].
Qed.

(** C2, as amended.  When the caller of [find_jobs_by_skills] leaves the
    limit out, the limit of the request is the default of the definition,
    10; the driver [main] never leaves it out: with at least one skill
    argument the request it makes carries the limit 20. *)
Theorem limit_when_unspecified py_repr rg :
  (forall skills,
     requests_made (fst (find_jobs_by_skills py_repr rg skills None))
     = [(search_url skills, Some [("limit", PInt 10)])])
  /\ (forall argv,
        (2 <= List.length argv)%nat ->
        requests_made (fst (main py_repr rg argv))
        = [(search_url (skipn 1 argv), Some [("limit", PInt 20)])]).
Proof.
  split.
  - intros skills. apply find_jobs_by_skills_request.
  - intros argv Hlen. unfold main.
    destruct (Z.ltb_spec (Z.of_nat (List.length argv)) 2) as [Hlt|_]; [lia|].
    rewrite !bind_print, !fst_prepend. cbn [app requests_made].
    apply find_jobs_by_skills_request.
Qed.

Lemma limit_when_unspecified_witness :
  requests_made
    (fst (main Samples.no_repr Samples.unreachable
            ["find-jobs-by-skill.py"; "Rust"]))
  = [("http://localhost:3000/api/jobs/skills/Rust",
      Some [("limit", PInt 20)])].
Proof.
  apply (proj2 (limit_when_unspecified Samples.no_repr Samples.unreachable)
           ["find-jobs-by-skill.py"; "Rust"]).
  simpl. lia.
Defined.

(** C2, as stated, fails: a call that leaves the limit out asks for 10
    postings, not 20. *)
Lemma default_limit_is_ten :
  requests_made
    (fst (find_jobs_by_skills Samples.no_repr Samples.unreachable
            ["Python"] None))
  = [("http://localhost:3000/api/jobs/skills/Python",
      Some [("limit", PInt 10)])]
  /\ PInt 10 <> PInt 20.
Proof.
  split; [reflexivity | discriminate].
Qed.

(** ** Rendering of the answer to a search *)

Lemma bind_step {A B} (t : list event) (a : A) (f : A -> M B) :
  bind (t, Return a) f = prepend t (f a).
Proof. reflexivity. Qed.

Lemma all_str_strs i l : all_str i (map PStr l) = inr l.
Proof.
  revert i. induction l as [|s l IH]; intros i; simpl; [reflexivity|].
  now rewrite IH.
Qed.

Lemma py_join_strs sep l :
  py_join sep (PList (map PStr l)) = Return (Str.join sep l).
Proof. unfold py_join. simpl. now rewrite all_str_strs. Qed.

(** One step of the script on values that are known. *)
Ltac run_steps :=
  repeat first
    [ rewrite bind_lift_return
    | rewrite bind_print
    | rewrite firstn_map
    | rewrite py_join_strs
    | rewrite length_map
    | progress cbn [getitem lookup String.eqb Ascii.eqb Bool.eqb
                    slice_to py_len py_iter truthy app] ].

Lemma print_job_record py_repr j :
  print_job py_repr (Data.JobRecord_to_py j)
  = (map Stdout (Render.job_block j), Return tt).
Proof.
  unfold print_job, Data.JobRecord_to_py.
  run_steps. reflexivity.
Qed.

Lemma for_each_print_job py_repr jobs :
  for_each (map Data.JobRecord_to_py jobs) (print_job py_repr)
  = (map Stdout (concat (map Render.job_block jobs)), Return tt).
Proof.
  induction jobs as [|j jobs IH]; [reflexivity|].
  cbn [map for_each concat]. rewrite print_job_record, IH.
  rewrite bind_step. cbn [prepend]. now rewrite map_app.
Qed.

Lemma render_success py_repr requested r :
  Data.success r = true ->
  render py_repr requested (Data.SearchResult_to_py r)
  = (map Stdout (Render.header (Data.count r) requested
                 :: Str.mul "=" 60
                 :: concat (map Render.job_block (Data.jobs r))),
     Return tt).
Proof.
  intros Hs. unfold render, Data.SearchResult_to_py.
  run_steps. rewrite Hs. run_steps.
  rewrite for_each_print_job. reflexivity.
Qed.

Lemma render_rejected py_repr requested r msg :
  Data.success r = false -> Data.error r = Some msg ->
  render py_repr requested (Data.SearchResult_to_py r)
  = ([Stdout ("❌ Error: " ++ msg)], Return tt).
Proof.
  intros Hs He. unfold render, Data.SearchResult_to_py.
  run_steps. rewrite Hs, He. run_steps. reflexivity.
Qed.

(** A search whose request is answered with the body [data] prints what
    [render] prints, after the request. *)
Lemma find_jobs_by_skills_answered py_repr rg skills limit data t :
  answers (rg (search_url skills) (Some [("limit", PInt limit)])) data ->
  render py_repr skills data = (t, Return tt) ->
  find_jobs_by_skills py_repr rg skills (Some limit)
  = (HttpGet (search_url skills) (Some [("limit", PInt limit)]) :: t,
     Return tt).
Proof.
  intros (resp & Hg & Hs & Hj) Hr.
  unfold find_jobs_by_skills, get. unfold search_url in Hg.
  rewrite Hg, bind_step, Hs, bind_lift_return, Hj, bind_lift_return, Hr.
  reflexivity.
Qed.

Lemma job_block_length jobs :
  List.length (concat (map Render.job_block jobs))
  = (8 * List.length jobs)%nat.
Proof.
  induction jobs as [|j jobs IH]; [reflexivity|].
  cbn [map concat]. rewrite length_app, IH. simpl. lia.
Qed.

Lemma job_block_no_header j :
  Forall (fun line => String.prefix "🎯 Found " line = false)
         (Render.job_block j).
Proof. repeat constructor. Qed.

Lemma job_blocks_no_header jobs :
  Forall (fun line => String.prefix "🎯 Found " line = false)
         (concat (map Render.job_block jobs)).
Proof.
  induction jobs as [|j jobs IH]; [constructor|].
  cbn [map concat]. apply Forall_app. split; [apply job_block_no_header|exact IH].
Qed.

Lemma count_join_all c sep l :
  Str.count c sep = O ->
  Forall (fun s => Str.count c s = O) l ->
  Str.count c (Str.join sep l) = O.
Proof.
  intros Hsep Hl. destruct l as [|x l]; [reflexivity|].
  rewrite count_join, (count_in_all_zero _ _ Hl), Hsep. lia.
Qed.

(** C3.  A posting of the answer is printed as its eight lines, the fifth
    being the skills line.  With at most 5 skills that line is the prefix
    followed by all the skills joined by a comma and a space, and nothing
    else is appended: every skill occurs in it, and it holds no ellipsis
    marker (unless the skills themselves hold dots).  With more than 5 skills
    it is the prefix, the first 5 skills in their order joined the same way,
    and then the ellipsis marker. *)
Theorem skills_line_truncation py_repr (j : Data.JobRecord) :
  let shown := Data.skills j in
  print_job py_repr (Data.JobRecord_to_py j)
  = (map Stdout (Render.job_block j), Return tt)
  /\ nth_error (Render.job_block j) 4 = Some (Render.skills_line j)
  /\ ((List.length shown <= 5)%nat ->
      Render.skills_line j = Render.skills_prefix ++ Str.join ", " shown
      /\ (forall s, In s shown -> Str.contains s (Render.skills_line j) = true)
      /\ (Forall (fun s => Str.count "." s = O) shown ->
          Str.contains Render.ellipsis (Render.skills_line j) = false))
  /\ ((List.length shown > 5)%nat ->
      Render.skills_line j
      = Render.skills_prefix ++ Str.join ", " (firstn 5 shown)
        ++ Render.ellipsis
      /\ List.length (firstn 5 shown) = 5%nat
      /\ shown = (firstn 5 shown ++ skipn 5 shown)%list).
Proof.
  cbv zeta. split; [apply print_job_record|].
  split; [reflexivity|]. split.
  - intros Hle.
    assert (E : Render.skills_line j
                = Render.skills_prefix ++ Str.join ", " (Data.skills j)).
    { unfold Render.skills_line.
      rewrite firstn_all2 by exact Hle.
      destruct (Z.gtb_spec (Z.of_nat (List.length (Data.skills j))) 5)
        as [Hgt|_]; [lia|].
      now rewrite append_nil_r. }
    split; [exact E|]. rewrite E. split.
    + intros s Hin. apply contains_app_r, contains_join, Hin.
    + intros Hdots.
      destruct (Str.contains Render.ellipsis
                  (Render.skills_prefix ++ Str.join ", " (Data.skills j)))
        eqn:C; [|reflexivity].
      apply (contains_count ".") in C.
      rewrite count_app, (count_join_all "." ", " _ eq_refl Hdots) in C.
      simpl in C. lia.
  - intros Hgt. split; [|split].
    + unfold Render.skills_line.
      destruct (Z.gtb_spec (Z.of_nat (List.length (Data.skills j))) 5)
        as [_|Hle]; [reflexivity | lia].
    + apply firstn_length_le. lia.
    + symmetry. apply firstn_skipn.
Qed.

Lemma skills_line_truncation_witness :
  Render.skills_line Samples.backend_job = "🛠️  Skills: Python, SQL"
  /\ Str.contains "..." (Render.skills_line Samples.backend_job) = false
  /\ Render.skills_line Samples.fullstack_job
     = "🛠️  Skills: JavaScript, React, Node.js, SQL, Docker...".
Proof.
  destruct (skills_line_truncation Samples.no_repr Samples.backend_job)
    as (_ & _ & Hshort & _).
  destruct (skills_line_truncation Samples.no_repr Samples.fullstack_job)
    as (_ & _ & _ & Hlong).
  destruct Hshort as (E & _ & Hno); [simpl; lia|].
  destruct Hlong as (E' & _); [simpl; lia|].
  split; [exact E|]. split; [|exact E'].
  apply Hno. repeat constructor.
Defined.

(** C4.  When the service answers a search with a result whose success flag
    is false, the rendering is one line, the error line with the error
    message of the result; neither the header nor any line of a posting is
    printed, whatever the count and the postings of the result are. *)
Theorem rejected_search_prints_one_error_line
    py_repr rg skills limit (r : Data.SearchResult) (msg : string) :
  Data.success r = false ->
  Data.error r = Some msg ->
  answers (rg (search_url skills) (Some [("limit", PInt limit)]))
          (Data.SearchResult_to_py r) ->
  render py_repr skills (Data.SearchResult_to_py r)
  = ([Stdout ("❌ Error: " ++ msg)], Return tt)
  /\ find_jobs_by_skills py_repr rg skills (Some limit)
     = ([HttpGet (search_url skills) (Some [("limit", PInt limit)]);
         Stdout ("❌ Error: " ++ msg)], Return tt)
  /\ stdout (fst (find_jobs_by_skills py_repr rg skills (Some limit)))
     = ["❌ Error: " ++ msg]
  /\ Str.contains msg ("❌ Error: " ++ msg) = true.
Proof.
  intros Hs He Ha.
  pose proof (render_rejected py_repr skills r msg Hs He) as Hr.
  pose proof (find_jobs_by_skills_answered _ _ _ _ _ _ Ha Hr) as Hf.
  split; [exact Hr|]. split; [exact Hf|]. split.
  - rewrite Hf. reflexivity.
  - apply contains_app_r. rewrite <- (append_nil_r msg) at 2.
    apply contains_here.
Qed.

Lemma rejected_search_prints_one_error_line_witness :
  stdout
    (fst (find_jobs_by_skills Samples.no_repr
            (Samples.serving (Data.SearchResult_to_py Samples.rejected))
            ["Python"] (Some 20)))
  = ["❌ Error: Database unavailable"].
Proof.
  refine (proj1 (proj2 (proj2
    (rejected_search_prints_one_error_line Samples.no_repr
       (Samples.serving (Data.SearchResult_to_py Samples.rejected))
       ["Python"] 20 Samples.rejected "Database unavailable" _ _ _)))).
  - reflexivity.
  - reflexivity.
  - eexists. repeat split; reflexivity.
Defined.

(** C5.  When the service answers a search with a result whose success flag
    is true and that holds N postings, the rendering is the header line
    (with the count of the result and the requested skills) and the
    separator, once, followed by the N blocks of the postings in their
    order; no other line starts as the header does.  With no posting the
    header and the separator are all that is printed. *)
Theorem header_then_one_block_per_job
    py_repr rg skills limit (r : Data.SearchResult) :
  Data.success r = true ->
  answers (rg (search_url skills) (Some [("limit", PInt limit)]))
          (Data.SearchResult_to_py r) ->
  let blocks := map Render.job_block (Data.jobs r) in
  stdout (fst (find_jobs_by_skills py_repr rg skills (Some limit)))
  = (Render.header (Data.count r) skills :: Str.mul "=" 60 :: concat blocks)
  /\ snd (find_jobs_by_skills py_repr rg skills (Some limit)) = Return tt
  /\ List.length blocks = List.length (Data.jobs r)
  /\ (forall i, nth_error blocks i
                = option_map Render.job_block (nth_error (Data.jobs r) i))
  /\ String.prefix "🎯 Found " (Render.header (Data.count r) skills) = true
  /\ Forall (fun line => String.prefix "🎯 Found " line = false)
            (Str.mul "=" 60 :: concat blocks)
  /\ (Data.jobs r = [] ->
      stdout (fst (find_jobs_by_skills py_repr rg skills (Some limit)))
      = [Render.header (Data.count r) skills; Str.mul "=" 60]).
Proof.
  intros Hs Ha blocks.
  pose proof (render_success py_repr skills r Hs) as Hr.
  pose proof (find_jobs_by_skills_answered _ _ _ _ _ _ Ha Hr) as Hf.
  assert (Hout : stdout (fst (find_jobs_by_skills py_repr rg skills (Some limit)))
                 = Render.header (Data.count r) skills
                   :: Str.mul "=" 60 :: concat blocks).
  { rewrite Hf. cbn [fst stdout]. apply stdout_map_Stdout. }
  split; [exact Hout|]. split; [rewrite Hf; reflexivity|].
  split; [apply length_map|].
  split; [intros i; apply nth_error_map|].
  split; [apply prefix_app|].
  split.
  - constructor; [reflexivity | apply job_blocks_no_header].
  - intros Hnil. rewrite Hout. subst blocks. rewrite Hnil. reflexivity.
Qed.

Lemma header_then_one_block_per_job_witness :
  stdout
    (fst (find_jobs_by_skills Samples.no_repr
            (Samples.serving (Data.SearchResult_to_py Samples.one_match))
            ["Python"] (Some 20)))
  = ["🎯 Found 1 jobs matching skills: Python";
     "============================================================";
     "📋 Backend Engineer";
     "🏢 Company: Acme";
     "📍 Location: Remote";
     "🔗 URL: http://x";
     "🛠️  Skills: Python, SQL";
     "📅 Posted: 2024-01-01";
     "🌐 Source: example";
     "------------------------------------------------------------"].
Proof.
  refine (proj1
    (header_then_one_block_per_job Samples.no_repr
       (Samples.serving (Data.SearchResult_to_py Samples.one_match))
       ["Python"] 20 Samples.one_match _ _)).
  - reflexivity.
  - eexists. repeat split; reflexivity.
Defined.

(** ** The catalog fetch and the guidance path *)

Lemma fetch_catalog_trace rg : fst (fetch_catalog rg) = [HttpGet catalog_url None].
Proof.
  unfold fetch_catalog, get, catalog_url.
  destruct (rg (API_BASE ++ "/skills") None) as [resp|e]; [|reflexivity].
  rewrite bind_step, fst_prepend.
  destruct (raise_for_status resp) as [[]|e]; [|reflexivity].
  rewrite bind_lift_return.
  destruct (json resp) as [data|e]; [|reflexivity].
  rewrite bind_lift_return.
  destruct (getitem data "success") as [flag|e]; [|reflexivity].
  rewrite bind_lift_return.
  destruct (truthy flag); reflexivity.
Qed.

(** [get_available_skills] returns what the suite of its [try] returns, and
    the empty list when the suite raises. *)
Lemma get_available_skills_cases rg :
  get_available_skills rg
  = ([HttpGet catalog_url None],
     match snd (fetch_catalog rg) with
     | Return v => Return v
     | Raise _ => Return (PList [])
     end).
Proof.
  unfold get_available_skills.
  pose proof (fetch_catalog_trace rg) as Ht.
  destruct (fetch_catalog rg) as [t [v|e]]; simpl in Ht; subst t; reflexivity.
Qed.


Lemma main_without_skills py_repr rg argv :
  (List.length argv < 2)%nat ->
  main py_repr rg argv
  = prepend [Stdout Render.usage_line; Stdout Render.available_line]
      (skills <- get_available_skills rg ;;
       show_catalog py_repr skills ;;
       print Render.example_line ;;
       sys_exit 1).
Proof.
  intros Hlen. unfold main.
  destruct (Z.ltb_spec (Z.of_nat (List.length argv)) 2) as [_|Hge]; [|lia].
  rewrite !bind_print, prepend_prepend. reflexivity.
Qed.

(** The guidance path when the catalog is taken as empty. *)
Lemma main_with_empty_catalog py_repr rg argv v :
  (List.length argv < 2)%nat ->
  get_available_skills rg = ([HttpGet catalog_url None], Return v) ->
  truthy v = false ->
  main py_repr rg argv
  = ([Stdout Render.usage_line; Stdout Render.available_line;
      HttpGet catalog_url None;
      Stdout Render.could_not_fetch_line; Stdout Render.example_line],
     Raise (SystemExit 1)).
Proof.
  intros Hlen Hg Hv. rewrite main_without_skills by exact Hlen.
  rewrite Hg, bind_step. unfold show_catalog. rewrite Hv. reflexivity.
Qed.



(** C10.  When the request for the catalog passes at the transport level
    and the success flag of the body is false, [get_available_skills]
    returns [None], which is not the empty list; the guidance path prints
    the could-not-fetch line all the same, [None] being false in the test of
    the caller.  The empty list of the [except] clause is returned when the
    suite of the [try] raises, and only then: when it does not raise, the
    function returns what the suite returns. *)
Theorem rejected_catalog_returns_None py_repr rg argv :
  (forall resp data flag,
     rg catalog_url None = Return resp ->
     raise_for_status resp = Return tt ->
     json resp = Return data ->
     getitem data "success" = Return flag ->
     truthy flag = false ->
     get_available_skills rg = ([HttpGet catalog_url None], Return PNone)
     /\ PNone <> PList []
     /\ truthy PNone = false
     /\ ((List.length argv < 2)%nat ->
         stdout (fst (main py_repr rg argv))
         = [Render.usage_line; Render.available_line;
            Render.could_not_fetch_line; Render.example_line]))
  /\ (forall e, snd (fetch_catalog rg) = Raise e ->
        snd (get_available_skills rg) = Return (PList []))
  /\ (forall v, snd (fetch_catalog rg) = Return v ->
        snd (get_available_skills rg) = Return v).
Proof.
  split; [|split].
  - intros resp data flag Hg Hs Hj Hk Hf.
    assert (E : get_available_skills rg
                = ([HttpGet catalog_url None], Return PNone)).
    { rewrite get_available_skills_cases. f_equal.
      unfold fetch_catalog, get. unfold catalog_url in Hg.
      rewrite Hg, bind_step, snd_prepend, Hs, bind_lift_return, Hj,
        bind_lift_return, Hk, bind_lift_return, Hf.
      reflexivity. }
    split; [exact E|]. split; [discriminate|]. split; [reflexivity|].
    intros Hlen.
    rewrite (main_with_empty_catalog py_repr rg argv PNone Hlen E eq_refl).
    reflexivity.
  - intros e E. rewrite get_available_skills_cases, E. reflexivity.
  - intros v E. rewrite get_available_skills_cases, E. reflexivity.
Qed.

Lemma rejected_catalog_returns_None_witness :
  get_available_skills
    (Samples.serving (Data.catalog_to_py false ["Python"; "Rust"]))
  = ([HttpGet catalog_url None], Return PNone)
  /\ stdout
       (fst (main Samples.no_repr
               (Samples.serving (Data.catalog_to_py false ["Python"; "Rust"]))
               ["find-jobs-by-skill.py"]))
     = [Render.usage_line; Render.available_line;
        Render.could_not_fetch_line; Render.example_line].
Proof.
  destruct (proj1 (rejected_catalog_returns_None Samples.no_repr
                     (Samples.serving
                        (Data.catalog_to_py false ["Python"; "Rust"]))
                     ["find-jobs-by-skill.py"])
              _ _ (PBool false) eq_refl eq_refl eq_refl eq_refl eq_refl)
    as (E & _ & _ & Hm).
  split; [exact E|]. apply Hm. simpl. lia.
Defined.

(** ** The display of the catalog *)

Lemma for_each_numbered py_repr (l : list string) (start : Z) :
  for_each (enumerate (map PStr l) start)
    (fun '(i, skill) =>
       print ("  " ++ Str.format_2d i ++ ". " ++ py_str py_repr skill))
  = (map Stdout
       (map (fun '(i, skill) => "  " ++ Str.format_2d i ++ ". " ++ skill)
            (enumerate l start)),
     Return tt).
Proof.
  revert start. induction l as [|s l IH]; intros start; [reflexivity|].
  cbn [map enumerate for_each]. rewrite bind_print, IH. reflexivity.
Qed.

Lemma show_catalog_strs py_repr (catalog : list string) :
  show_catalog py_repr (PList (map PStr catalog))
  = (map Stdout (catalog_lines catalog), Return tt).
Proof.
  destruct catalog as [|x l]; [reflexivity|].
  unfold show_catalog, catalog_lines.
  change (truthy (PList (map PStr (x :: l)))) with true. cbv iota.
  cbn [slice_to]. rewrite bind_lift_return, firstn_map.
  cbn [py_iter]. rewrite bind_lift_return.
  rewrite for_each_numbered, bind_step.
  cbn [py_len]. rewrite bind_lift_return, length_map.
  unfold Render.summary, Render.numbered.
  destruct (Z.of_nat (List.length (x :: l)) >? 20).
  - rewrite bind_lift_return. cbn [prepend print py_str].
    now rewrite map_app.
  - cbn [prepend ret]. now rewrite map_app, !app_nil_r.
Qed.

Lemma enumerate_nth {A} (l : list A) (start : Z) (k : nat) :
  nth_error (enumerate l start) k
  = option_map (fun x => (start + Z.of_nat k, x)) (nth_error l k).
Proof.
  revert start k. induction l as [|x l IH]; intros start [|k]; simpl;
    try reflexivity.
  - now rewrite Z.add_0_r.
  - rewrite IH. destruct (nth_error l k); simpl; [|reflexivity].
    do 2 f_equal. lia.
Qed.

Lemma enumerate_length {A} (l : list A) (start : Z) :
  List.length (enumerate l start) = List.length l.
Proof.
  revert start. induction l as [|x l IH]; intros start; simpl;
    [reflexivity | now rewrite IH].
Qed.

(** C7.  When the service answers the catalog request with a list of skill
    names, the guidance path prints, between the two usage lines and the
    example line, the first 20 names at most, numbered from 1 (the number
    right-aligned on two columns), and after them the summary line exactly
    when the catalog has more than 20 names; an empty catalog gets the
    could-not-fetch line.  A catalog of 20 names has no summary line; for a
    catalog of 21 names the summary line reads [... and 1 more] behind its
    indentation. *)
Theorem catalog_display py_repr rg argv (catalog : list string) :
  (List.length argv < 2)%nat ->
  answers (rg catalog_url None) (Data.catalog_to_py true catalog) ->
  let entries := Render.numbered (firstn 20 catalog) in
  stdout (fst (main py_repr rg argv))
  = ([Render.usage_line; Render.available_line]
     ++ catalog_lines catalog ++ [Render.example_line])%list
  /\ (catalog <> [] ->
      catalog_lines catalog = (entries ++ Render.summary catalog)%list)
  /\ List.length entries = Nat.min 20 (List.length catalog)
  /\ (forall k skill,
        nth_error catalog k = Some skill -> (k < 20)%nat ->
        nth_error entries k
        = Some ("  " ++ Str.format_2d (Z.of_nat k + 1) ++ ". " ++ skill))
  /\ (Render.summary catalog <> [] <-> (List.length catalog > 20)%nat)
  /\ (Render.summary catalog
      = [] \/
      Render.summary catalog
      = ["     ... and "
         ++ Str.of_Z (Z.of_nat (List.length catalog) - 20) ++ " more"])
  /\ (List.length catalog = 20%nat -> Render.summary catalog = [])
  /\ (List.length catalog = 21%nat ->
      Render.summary catalog = ["     ... and 1 more"]).
Proof.
  intros Hlen (resp & Hg & Hs & Hj) entries.
  split; [|split; [|split; [|split; [|split; [|split; [|split]]]]]].
  - rewrite main_without_skills by exact Hlen.
    rewrite get_available_skills_cases.
    assert (E : snd (fetch_catalog rg) = Return (PList (map PStr catalog))).
    { unfold fetch_catalog, get. unfold catalog_url in Hg.
      rewrite Hg, bind_step, snd_prepend, Hs, bind_lift_return, Hj,
        bind_lift_return.
      reflexivity. }
    rewrite E, bind_step, show_catalog_strs, bind_step.
    cbn [prepend print sys_exit raise bind fst app stdout].
    rewrite stdout_app, stdout_map_Stdout. reflexivity.
  - intros Hne. destruct catalog; [contradiction | reflexivity].
  - unfold entries, Render.numbered.
    rewrite length_map, enumerate_length, length_firstn. reflexivity.
  - intros k skill Hk Hlt. unfold entries, Render.numbered.
    rewrite nth_error_map, enumerate_nth, nth_error_firstn.
    destruct (Nat.ltb_spec k 20) as [_|Hge]; [|lia].
    rewrite Hk. cbn [option_map]. now rewrite Z.add_comm.
  - unfold Render.summary.
    destruct (Z.gtb_spec (Z.of_nat (List.length catalog)) 20) as [Hgt|Hle].
    + split; [intros _; lia | intros _; discriminate].
    + split; [intros H; now contradiction H | intros H; lia].
  - unfold Render.summary.
    destruct (Z.of_nat (List.length catalog) >? 20); [right|left]; reflexivity.
  - intros H20. unfold Render.summary. rewrite H20. reflexivity.
  - intros H21. unfold Render.summary. rewrite H21. reflexivity.
Qed.

Lemma catalog_display_witness :
  stdout
    (fst (main Samples.no_repr
            (Samples.serving (Data.catalog_to_py true (Samples.catalog 21)))
            ["find-jobs-by-skill.py"]))
  = ([Render.usage_line; Render.available_line]
     ++ Render.numbered (Samples.catalog 20)
     ++ ["     ... and 1 more"; Render.example_line])%list
  /\ nth_error (Render.numbered (Samples.catalog 20)) 0 = Some "   1. Go"
  /\ Render.summary (Samples.catalog 20) = [].
Proof.
  destruct (catalog_display Samples.no_repr
              (Samples.serving (Data.catalog_to_py true (Samples.catalog 21)))
              ["find-jobs-by-skill.py"] (Samples.catalog 21))
    as (Hout & _ & _ & Hnth & _ & _ & _ & H21).
  - simpl. lia.
  - eexists. repeat split; reflexivity.
  - destruct (catalog_display Samples.no_repr
                (Samples.serving (Data.catalog_to_py true (Samples.catalog 20)))
                ["find-jobs-by-skill.py"] (Samples.catalog 20))
      as (_ & _ & _ & _ & _ & _ & H20 & _).
    + simpl. lia.
    + eexists. repeat split; reflexivity.
    + split; [|split].
      * rewrite Hout. reflexivity.
      * apply (Hnth 0%nat "Go"); [reflexivity | lia].
      * apply H20. reflexivity.
Defined.

(** ** Failures of the search and the exit status *)

Lemma run_main py_repr rg argv :
  run py_repr rg argv
  = (fst (main py_repr rg argv), exit_status (snd (main py_repr rg argv))).
Proof. unfold run. destruct (main py_repr rg argv). reflexivity. Qed.

Lemma handlers_of_requests_failure e :
  isinstance e RequestException = true ->
  search_handlers e = Some (map Stdout (failure_lines e), Return tt).
Proof.
  intros He. unfold search_handlers, failure_lines.
  destruct (isinstance e ConnectionError); [reflexivity|].
  rewrite He. reflexivity.
Qed.

(** A failure of one of the calls into [requests] is caught when it is an
    instance of [RequestException], and reported on standard output. *)
Lemma find_jobs_by_skills_failure py_repr rg skills limit e :
  external_failure (rg (search_url skills) (Some [("limit", PInt limit)])) e ->
  isinstance e RequestException = true ->
  find_jobs_by_skills py_repr rg skills (Some limit)
  = (HttpGet (search_url skills) (Some [("limit", PInt limit)])
     :: map Stdout (failure_lines e),
     Return tt).
Proof.
  intros Hf He. unfold find_jobs_by_skills, get.
  pose proof (handlers_of_requests_failure e He) as Hh.
  unfold search_url in Hf.
  destruct Hf as [Hg | resp Hg Hs | resp Hg Hs Hj]; rewrite Hg.
  - cbn [bind try_except]. rewrite Hh. reflexivity.
  - rewrite bind_step, Hs. cbn [lift bind prepend try_except app].
    rewrite Hh. reflexivity.
  - rewrite bind_step, Hs, bind_lift_return, Hj.
    cbn [lift bind prepend try_except app]. rewrite Hh. reflexivity.
Qed.

(** The exceptions raised by a subscription are no [requests] exceptions. *)
Lemma getitem_raises v k e :
  getitem v k = Raise e -> search_handlers e = None.
Proof.
  destruct v; simpl; try (intros H; inversion H; reflexivity).
  destruct (lookup k d); intros H; inversion H; reflexivity.
Qed.

(** A body whose success flag cannot be read makes the search raise. *)
Lemma find_jobs_by_skills_unreadable py_repr rg skills limit data e :
  answers (rg (search_url skills) (Some [("limit", PInt limit)])) data ->
  getitem data "success" = Raise e ->
  find_jobs_by_skills py_repr rg skills (Some limit)
  = ([HttpGet (search_url skills) (Some [("limit", PInt limit)])], Raise e).
Proof.
  intros (resp & Hg & Hs & Hj) Hk.
  unfold find_jobs_by_skills, get, render. unfold search_url in Hg.
  rewrite Hg, bind_step, Hs, bind_lift_return, Hj, bind_lift_return, Hk.
  cbn [lift bind prepend try_except app].
  rewrite (getitem_raises _ _ _ Hk). reflexivity.
Qed.

Lemma main_with_skills py_repr rg argv :
  (2 <= List.length argv)%nat ->
  main py_repr rg argv
  = prepend [Stdout "🚀 Job Posting Aggregator - Skills Search";
             Stdout (Str.mul "=" 50)]
      (find_jobs_by_skills py_repr rg (skipn 1 argv) (Some 20)).
Proof.
  intros Hlen. unfold main.
  destruct (Z.ltb_spec (Z.of_nat (List.length argv)) 2) as [Hlt|_]; [lia|].
  rewrite !bind_print, prepend_prepend. reflexivity.
Qed.

(** The search returns normally in the three foreseen cases. *)
Lemma find_jobs_by_skills_settled py_repr rg skills limit :
  search_outcome (rg (search_url skills) (Some [("limit", PInt limit)])) ->
  snd (find_jobs_by_skills py_repr rg skills (Some limit)) = Return tt.
Proof.
  intros [e Hf He | r Ha Hs | r msg Ha Hs Hm].
  - rewrite (find_jobs_by_skills_failure _ _ _ _ _ Hf He). reflexivity.
  - rewrite (find_jobs_by_skills_answered _ _ _ _ _ _ Ha
               (render_success py_repr skills r Hs)).
    reflexivity.
  - rewrite (find_jobs_by_skills_answered _ _ _ _ _ _ Ha
               (render_rejected py_repr skills r msg Hs Hm)).
    reflexivity.
Qed.

(** C8, as amended.  Run without a skill argument, the script prints the
    usage lines and leaves with the status 1, whatever the catalog request
    does.  Run with one skill argument or more, it leaves with the status 0
    in each of the three cases that the service and the transport foresee:
    the search succeeds, it fails in the transport with an exception of
    [requests], or it is rejected by the service with an error message. *)
Theorem exit_status_by_arguments py_repr rg argv :
  ((List.length argv < 2)%nat ->
   exists t,
     run py_repr rg argv
     = (Stdout Render.usage_line :: Stdout Render.available_line :: t, 1))
  /\ ((2 <= List.length argv)%nat ->
      search_outcome
        (rg (search_url (skipn 1 argv)) (Some [("limit", PInt 20)])) ->
      snd (run py_repr rg argv) = 0).
Proof.
  split.
  - intros Hlen. rewrite run_main, main_without_skills by exact Hlen.
    rewrite fst_prepend, snd_prepend, get_available_skills_cases.
    set (v := match snd (fetch_catalog rg) with
              | Return v => v
              | Raise _ => PList []
              end).
    replace (match snd (fetch_catalog rg) with
             | Return v => Return v
             | Raise _ => Return (PList [])
             end) with (Return (A:=pyval) v)
      by (subst v; destruct (snd (fetch_catalog rg)); reflexivity).
    rewrite bind_step, fst_prepend, snd_prepend.
    eexists. cbn [app]. f_equal.
    rewrite snd_bind.
    pose proof (no_exit_show_catalog py_repr v) as Hno.
    destruct (snd (show_catalog py_repr v)) as [[]|[c msg|code]];
      [reflexivity | reflexivity | contradiction].
  - intros Hlen Hout. rewrite run_main. cbn [snd].
    rewrite main_with_skills by exact Hlen.
    rewrite snd_prepend, (find_jobs_by_skills_settled _ _ _ _ Hout).
    reflexivity.
Qed.

Lemma exit_status_by_arguments_witness :
  snd (run Samples.no_repr Samples.unreachable ["find-jobs-by-skill.py"]) = 1
  /\ snd (run Samples.no_repr Samples.unreachable
            ["find-jobs-by-skill.py"; "Rust"]) = 0.
Proof.
  split.
  - destruct (proj1 (exit_status_by_arguments Samples.no_repr
                       Samples.unreachable ["find-jobs-by-skill.py"]))
      as [t Ht].
    + simpl. lia.
    + rewrite Ht. reflexivity.
  - apply (proj2 (exit_status_by_arguments Samples.no_repr
                    Samples.unreachable ["find-jobs-by-skill.py"; "Rust"])).
    + simpl. lia.
    + eapply transport_failed; [apply get_fails|]; reflexivity.
Defined.

(** C9, as amended.  Every failure of a call into [requests] made for the
    search (the request, the status check, the decoding of the body) that is
    an instance of [RequestException] is caught: the search returns
    normally after printing the could-not-connect message and its hint for
    an instance of [ConnectionError], the failure message with the text of
    the error otherwise.  Connection failures, timeouts, error statuses,
    malformed HTTP and undecodable bodies are such instances.  A body that
    decodes to JSON but whose success flag cannot be read raises a
    [KeyError] or a [TypeError] that no clause catches. *)
Theorem requests_failures_are_reported py_repr rg skills limit :
  let o := rg (search_url skills) (Some [("limit", PInt limit)]) in
  (forall e,
     external_failure o e ->
     isinstance e RequestException = true ->
     find_jobs_by_skills py_repr rg skills (Some limit)
     = (HttpGet (search_url skills) (Some [("limit", PInt limit)])
        :: map Stdout
             (if isinstance e ConnectionError
              then ["❌ Could not connect to the API server.";
                    "Make sure the server is running: npm start"]
              else ["❌ Request failed: " ++ exc_str e]),
        Return tt))
  /\ Forall (fun c => issubclass c RequestException = true)
       [ConnectionError; ProxyError; SSLError; ConnectTimeout; Timeout;
        ReadTimeout; HTTPError; TooManyRedirects; ChunkedEncodingError;
        ContentDecodingError; InvalidHeader; InvalidJSONError;
        JSONDecodeError]
  /\ (forall data e,
        answers o data ->
        getitem data "success" = Raise e ->
        find_jobs_by_skills py_repr rg skills (Some limit)
        = ([HttpGet (search_url skills) (Some [("limit", PInt limit)])],
           Raise e)).
Proof.
  cbv zeta. split; [|split].
  - intros e Hf He.
    rewrite (find_jobs_by_skills_failure _ _ _ _ _ Hf He). reflexivity.
  - repeat constructor.
  - intros data e Ha Hk. exact (find_jobs_by_skills_unreadable _ _ _ _ _ _ Ha Hk).
Qed.

Lemma requests_failures_are_reported_witness :
  find_jobs_by_skills Samples.no_repr Samples.failing ["Rust"] (Some 20)
  = ([HttpGet "http://localhost:3000/api/jobs/skills/Rust"
        (Some [("limit", PInt 20)]);
      Stdout "❌ Request failed: 500 Server Error: Internal Server Error"],
     Return tt)
  /\ find_jobs_by_skills Samples.no_repr Samples.unreachable ["Rust"] (Some 20)
     = ([HttpGet "http://localhost:3000/api/jobs/skills/Rust"
           (Some [("limit", PInt 20)]);
         Stdout "❌ Could not connect to the API server.";
         Stdout "Make sure the server is running: npm start"],
        Return tt).
Proof.
  split.
  - apply (proj1 (requests_failures_are_reported Samples.no_repr
                    Samples.failing ["Rust"] 20)
             (Exc HTTPError "500 Server Error: Internal Server Error")).
    + eapply status_fails; reflexivity.
    + reflexivity.
  - apply (proj1 (requests_failures_are_reported Samples.no_repr
                    Samples.unreachable ["Rust"] 20)
             (Exc ConnectionError "Connection refused")).
    + apply get_fails. reflexivity.
    + reflexivity.
Defined.

(** C9, as stated, fails on a body that the client cannot interpret: the
    service answers with the status 200 and a JSON object that has no
    [success] entry; the [KeyError] raised by line 24 is no instance of
    [RequestException], no message is printed for it, and the script ends
    on the uncaught exception with the status 1. *)
Lemma body_without_success_flag :
  find_jobs_by_skills Samples.no_repr Samples.off_format ["Rust"] (Some 20)
  = ([HttpGet "http://localhost:3000/api/jobs/skills/Rust"
        (Some [("limit", PInt 20)])],
     Raise (Exc KeyError "'success'"))
  /\ isinstance (Exc KeyError "'success'") RequestException = false
  /\ run Samples.no_repr Samples.off_format ["find-jobs-by-skill.py"; "Rust"]
     = ([Stdout "🚀 Job Posting Aggregator - Skills Search";
         Stdout "==================================================";
         HttpGet "http://localhost:3000/api/jobs/skills/Rust"
           (Some [("limit", PInt 20)])],
        1).
Proof.
  repeat split.
Qed.

(** C8, as stated, fails on an invocation with a skill argument whose
    request is answered by a body that is no search result (here a JSON
    list): the [TypeError] raised by line 24 is not caught and the script
    leaves with the status 1. *)
Lemma skill_argument_and_failure_status :
  (2 <= List.length ["find-jobs-by-skill.py"; "Python"])%nat
  /\ run Samples.no_repr (Samples.serving (PList []))
       ["find-jobs-by-skill.py"; "Python"]
     = ([Stdout "🚀 Job Posting Aggregator - Skills Search";
         Stdout "==================================================";
         HttpGet "http://localhost:3000/api/jobs/skills/Python"
           (Some [("limit", PInt 20)])],
        1)
  /\ 1 <> 0.
Proof.
  split; [simpl; lia|]. split; [reflexivity | discriminate].
Qed.

(** ** Further properties of the script *)

Lemma quiet_trace t : requests_made t = [] -> t = map Stdout (stdout t).
Proof.
  induction t as [|[s|u p] t IH]; simpl; intros H;
    [reflexivity | now rewrite <- IH | discriminate].
Qed.

Lemma uncaught_getitem v k : uncaught (getitem v k).
Proof.
  destruct (getitem v k) as [x|e] eqn:E; [exact I|].
  exact (getitem_raises _ _ _ E).
Qed.

Lemma uncaught_slice_to n v : uncaught (slice_to n v).
Proof. destruct v; simpl; solve [exact I | reflexivity]. Qed.

Lemma uncaught_py_iter v : uncaught (py_iter v).
Proof. destruct v; simpl; solve [exact I | reflexivity]. Qed.

Lemma uncaught_py_len v : uncaught (py_len v).
Proof. destruct v; simpl; solve [exact I | reflexivity]. Qed.

Lemma uncaught_py_join sep v : uncaught (py_join sep v).
Proof.
  unfold py_join. destruct (py_iter v) as [items|e]; [|reflexivity].
  destruct (all_str 0 items) as [[i bad]|ss]; [reflexivity | exact I].
Qed.

Lemma uncaught_bind {A B} (m : M A) (f : A -> M B) :
  uncaught (snd m) -> (forall a, uncaught (snd (f a))) ->
  uncaught (snd (bind m f)).
Proof.
  intros Hm Hf. rewrite snd_bind.
  destruct (snd m) as [a|e]; [apply Hf | exact Hm].
Qed.

Lemma uncaught_for_each {A} (l : list A) (body : A -> M unit) :
  (forall a, uncaught (snd (body a))) -> uncaught (snd (for_each l body)).
Proof.
  intros Hb. induction l as [|x l IH]; simpl; [exact I|].
  apply uncaught_bind; [apply Hb | intros _; exact IH].
Qed.

Ltac uncaught_steps :=
  repeat first
    [ exact I
    | apply uncaught_getitem | apply uncaught_slice_to
    | apply uncaught_py_iter | apply uncaught_py_len
    | apply uncaught_py_join
    | apply uncaught_bind; [|intro]
    | apply uncaught_for_each; intro
    | match goal with
      | |- uncaught (snd (if ?b then _ else _)) => destruct b
      end ].

Lemma uncaught_print_job py_repr job : uncaught (snd (print_job py_repr job)).
Proof. unfold print_job. uncaught_steps. Qed.

Lemma uncaught_render py_repr skills data :
  uncaught (snd (render py_repr skills data)).
Proof.
  unfold render.
  apply uncaught_bind; [apply uncaught_getitem | intros flag].
  destruct (truthy flag).
  - apply uncaught_bind; [apply uncaught_getitem | intros c].
    apply uncaught_bind; [exact I | intros _].
    apply uncaught_bind; [exact I | intros _].
    apply uncaught_bind; [apply uncaught_getitem | intros jobs].
    apply uncaught_bind; [apply uncaught_py_iter | intros items].
    apply uncaught_for_each. intros job. apply uncaught_print_job.
  - apply uncaught_bind; [apply uncaught_getitem | intros err]. exact I.
Qed.

Lemma subclass_of_ConnectionError c :
  issubclass c ConnectionError = true -> issubclass c RequestException = true.
Proof. destruct c; intros H; solve [reflexivity | discriminate H]. Qed.

Lemma not_a_requests_exception e :
  isinstance e RequestException = false -> search_handlers e = None.
Proof.
  intros H. unfold search_handlers. rewrite H.
  destruct (isinstance e ConnectionError) eqn:C; [|reflexivity].
  destruct e as [c msg|code]; [|discriminate C].
  simpl in *. apply subclass_of_ConnectionError in C. congruence.
Qed.

Lemma find_jobs_by_skills_rendering py_repr rg skills limit data :
  answers (rg (search_url skills) (Some [("limit", PInt limit)])) data ->
  find_jobs_by_skills py_repr rg skills (Some limit)
  = prepend [HttpGet (search_url skills) (Some [("limit", PInt limit)])]
      (render py_repr skills data).
Proof.
  intros (resp & Hg & Hs & Hj).
  unfold find_jobs_by_skills, get. unfold search_url in Hg.
  rewrite Hg, bind_step, Hs, bind_lift_return, Hj, bind_lift_return.
  pose proof (uncaught_render py_repr skills data) as Hu.
  fold (search_url skills).
  destruct (render py_repr skills data) as [t [[]|e]]; [reflexivity|].
  simpl in Hu. cbn [prepend try_except]. rewrite Hu. reflexivity.
Qed.

(** X1.  When the transport delivers a decoded body, the search is the
    request followed by the rendering of the body, whatever the rendering
    does: what it prints is printed, and an exception it raises (a missing
    key, a value of the wrong type) leaves [find_jobs_by_skills] uncaught,
    no [Request failed] line being printed for it. *)
Theorem answered_search_is_rendering
    py_repr rg skills limit (data : pyval) :
  answers (rg (search_url skills) (Some [("limit", PInt limit)])) data ->
  find_jobs_by_skills py_repr rg skills (Some limit)
  = prepend [HttpGet (search_url skills) (Some [("limit", PInt limit)])]
      (render py_repr skills data)
  /\ (forall t e,
        render py_repr skills data = (t, Raise e) ->
        search_handlers e = None
        /\ find_jobs_by_skills py_repr rg skills (Some limit)
           = (HttpGet (search_url skills) (Some [("limit", PInt limit)]) :: t,
              Raise e)).
Proof.
  intros Ha.
  pose proof (find_jobs_by_skills_rendering py_repr rg skills limit data Ha)
    as E.
  split; [exact E|]. intros t e Hr. split.
  - pose proof (uncaught_render py_repr skills data) as Hu.
    rewrite Hr in Hu. exact Hu.
  - rewrite E, Hr. reflexivity.
Qed.

Lemma answered_search_is_rendering_witness :
  find_jobs_by_skills Samples.no_repr
    (Samples.serving (PDict [("success", PBool true); ("count", PInt 0)]))
    ["Go"] (Some 20)
  = ([HttpGet "http://localhost:3000/api/jobs/skills/Go"
        (Some [("limit", PInt 20)]);
      Stdout "🎯 Found 0 jobs matching skills: Go";
      Stdout "============================================================"],
     Raise (Exc KeyError "'jobs'")).
Proof.
  rewrite (proj1 (answered_search_is_rendering Samples.no_repr
             (Samples.serving (PDict [("success", PBool true);
                                      ("count", PInt 0)]))
             ["Go"] 20
             (PDict [("success", PBool true); ("count", PInt 0)])
             ltac:(eexists; repeat split; reflexivity))).
  reflexivity.
Defined.

(** X2.  An exception of a call into [requests] that is no instance of
    [RequestException] is not swallowed: it leaves [find_jobs_by_skills]
    as it was raised, nothing is printed, and the script ends with the
    status 1. *)
Theorem foreign_exception_propagates py_repr rg argv c msg :
  (2 <= List.length argv)%nat ->
  external_failure
    (rg (search_url (skipn 1 argv)) (Some [("limit", PInt 20)]))
    (Exc c msg) ->
  issubclass c RequestException = false ->
  find_jobs_by_skills py_repr rg (skipn 1 argv) (Some 20)
  = ([HttpGet (search_url (skipn 1 argv)) (Some [("limit", PInt 20)])],
     Raise (Exc c msg))
  /\ snd (run py_repr rg argv) = 1.
Proof.
  intros Hlen Hf Hc.
  assert (Hh : search_handlers (Exc c msg) = None)
    by (apply not_a_requests_exception; exact Hc).
  assert (E : find_jobs_by_skills py_repr rg (skipn 1 argv) (Some 20)
              = ([HttpGet (search_url (skipn 1 argv))
                    (Some [("limit", PInt 20)])],
                 Raise (Exc c msg))).
  { unfold find_jobs_by_skills, get. unfold search_url in Hf.
    destruct Hf as [Hg | resp Hg Hs | resp Hg Hs Hj]; rewrite Hg.
    - cbn [bind try_except]. rewrite Hh. reflexivity.
    - rewrite bind_step, Hs. cbn [lift bind prepend try_except app].
      rewrite Hh. reflexivity.
    - rewrite bind_step, Hs, bind_lift_return, Hj.
      cbn [lift bind prepend try_except app]. rewrite Hh. reflexivity. }
  split; [exact E|].
  rewrite run_main. cbn [snd].
  rewrite main_with_skills by exact Hlen.
  rewrite snd_prepend, E. reflexivity.
Qed.

Lemma foreign_exception_propagates_witness :
  find_jobs_by_skills Samples.no_repr Samples.undecodable ["Rust"] (Some 20)
  = ([HttpGet "http://localhost:3000/api/jobs/skills/Rust"
        (Some [("limit", PInt 20)])],
     Raise (Exc ValueError "Expecting value"))
  /\ snd (run Samples.no_repr Samples.undecodable
            ["find-jobs-by-skill.py"; "Rust"]) = 1.
Proof.
  apply (foreign_exception_propagates Samples.no_repr Samples.undecodable
           ["find-jobs-by-skill.py"; "Rust"] ValueError "Expecting value").
  - simpl. lia.
  - eapply json_fails; reflexivity.
  - reflexivity.
Defined.

Lemma requests_made_map_Stdout l : requests_made (map Stdout l) = [].
Proof. induction l as [|s l IH]; simpl; [reflexivity | exact IH]. Qed.

Lemma fst_bind_head {A B} (m : M A) (f : A -> M B) :
  exists t, fst (bind m f) = (fst m ++ t)%list.
Proof.
  rewrite fst_bind. destruct (snd m) as [a|e]; [eauto|].
  exists []. now rewrite app_nil_r.
Qed.

Lemma fst_try_except_head {A} (body : M A) handler :
  exists t, fst (try_except body handler) = (fst body ++ t)%list.
Proof.
  rewrite fst_try_except.
  destruct (snd body) as [a|e]; [exists []; now rewrite app_nil_r|].
  destruct (handler e) as [h|]; [eauto|].
  exists []. now rewrite app_nil_r.
Qed.

Lemma find_jobs_by_skills_trace py_repr rg skills limit :
  exists lines,
    fst (find_jobs_by_skills py_repr rg skills (Some limit))
    = HttpGet (search_url skills) (Some [("limit", PInt limit)])
      :: map Stdout lines.
Proof.
  pose proof (find_jobs_by_skills_request py_repr rg skills (Some limit)) as Hr.
  unfold find_jobs_by_skills in *.
  match goal with
  | |- context [try_except ?body ?h] =>
      destruct (fst_try_except_head body h) as [t2 H2];
      rewrite H2 in Hr |- *
  end.
  match goal with
  | |- context [fst (bind ?m ?f)] =>
      destruct (fst_bind_head m f) as [t1 H1];
      rewrite H1 in Hr |- *
  end.
  unfold get in *. cbn [fst app] in *. fold (search_url skills) in *.
  exists (stdout (t1 ++ t2)). f_equal. apply quiet_trace.
  simpl in Hr. congruence.
Qed.

(** X3.  Every run makes one request and no more, whatever the answer (no
    retry, no second endpoint): without a skill argument it is the catalog
    request, made after the two usage lines; with skill arguments it is the
    search request with the limit 20, made after the banner.  Everything
    that follows the request in the trace is a printed line. *)
Theorem one_request_per_run py_repr rg argv :
  ((List.length argv < 2)%nat ->
   exists lines,
     fst (main py_repr rg argv)
     = Stdout Render.usage_line :: Stdout Render.available_line
       :: HttpGet catalog_url None :: map Stdout lines)
  /\ ((2 <= List.length argv)%nat ->
      exists lines,
        fst (main py_repr rg argv)
        = Stdout "🚀 Job Posting Aggregator - Skills Search"
          :: Stdout (Str.mul "=" 50)
          :: HttpGet (search_url (skipn 1 argv)) (Some [("limit", PInt 20)])
          :: map Stdout lines).
Proof.
  split; intros Hlen.
  - rewrite main_without_skills by exact Hlen.
    rewrite fst_prepend, get_available_skills_cases.
    set (k := fun skills : pyval =>
                show_catalog py_repr skills ;;
                print Render.example_line ;; sys_exit 1).
    assert (Hq : forall v, quiet (k v)).
    { intros v. unfold k.
      apply quiet_bind; [apply quiet_show_catalog | intros _].
      apply quiet_bind; [apply quiet_print | intros _]. reflexivity. }
    destruct (snd (fetch_catalog rg)) as [v|e].
    + rewrite bind_step, fst_prepend. exists (stdout (fst (k v))).
      rewrite <- (quiet_trace _ (Hq v)). reflexivity.
    + rewrite bind_step, fst_prepend. exists (stdout (fst (k (PList [])))).
      rewrite <- (quiet_trace _ (Hq (PList []))). reflexivity.
  - rewrite main_with_skills by exact Hlen. rewrite fst_prepend.
    destruct (find_jobs_by_skills_trace py_repr rg (skipn 1 argv) 20)
      as [lines Hl].
    exists lines. rewrite Hl. reflexivity.
Qed.

Lemma one_request_per_run_witness :
  requests_made
    (fst (main Samples.no_repr Samples.unreachable ["find-jobs-by-skill.py"]))
  = [(catalog_url, None)]
  /\ requests_made
       (fst (main Samples.no_repr Samples.failing
               ["find-jobs-by-skill.py"; "Go"; "Rust"]))
     = [("http://localhost:3000/api/jobs/skills/Go,Rust",
         Some [("limit", PInt 20)])].
Proof.
  split.
  - destruct (proj1 (one_request_per_run Samples.no_repr Samples.unreachable
                       ["find-jobs-by-skill.py"])) as [lines Hl].
    + simpl. lia.
    + rewrite Hl. cbn [requests_made].
      now rewrite requests_made_map_Stdout.
  - destruct (proj2 (one_request_per_run Samples.no_repr Samples.failing
                       ["find-jobs-by-skill.py"; "Go"; "Rust"]))
      as [lines Hl].
    + simpl. lia.
    + rewrite Hl. cbn [requests_made].
      now rewrite requests_made_map_Stdout.
Defined.

(** X4.  The success flag is tested for its truth value, and the error
    field is printed as [str] gives it: a body whose [success] entry is any
    false value (false, null, 0, an empty string, list or object) and that
    has an [error] entry of any type is rendered as the single error line,
    whether or not it has [count] and [jobs] entries. *)
Theorem falsy_success_prints_error_field
    py_repr rg skills limit (data flag err : pyval) :
  answers (rg (search_url skills) (Some [("limit", PInt limit)])) data ->
  getitem data "success" = Return flag ->
  truthy flag = false ->
  getitem data "error" = Return err ->
  find_jobs_by_skills py_repr rg skills (Some limit)
  = ([HttpGet (search_url skills) (Some [("limit", PInt limit)]);
      Stdout ("❌ Error: " ++ py_str py_repr err)],
     Return tt).
Proof.
  intros Ha Hk Hf He.
  apply (find_jobs_by_skills_answered _ _ _ _ _ _ Ha).
  unfold render. rewrite Hk, bind_lift_return, Hf, He, bind_lift_return.
  reflexivity.
Qed.

Lemma falsy_success_prints_error_field_witness :
  find_jobs_by_skills Samples.no_repr
    (Samples.serving (PDict [("error", PNone); ("success", PInt 0)]))
    ["Go"] (Some 20)
  = ([HttpGet "http://localhost:3000/api/jobs/skills/Go"
        (Some [("limit", PInt 20)]);
      Stdout "❌ Error: None"],
     Return tt).
Proof.
  apply (falsy_success_prints_error_field Samples.no_repr
           (Samples.serving (PDict [("error", PNone); ("success", PInt 0)]))
           ["Go"] 20 (PDict [("error", PNone); ("success", PInt 0)])
           (PInt 0) PNone).
  - eexists. repeat split; reflexivity.
  - reflexivity.
  - reflexivity.
  - reflexivity.
Defined.

(** X5.  A body whose success flag is false and that has no [error] entry
    is not reported: line 40 raises a [KeyError] that no clause catches,
    nothing is printed after the banner, and the script ends with the
    status 1. *)
Theorem rejection_without_error_field
    py_repr rg argv (d : list (string * pyval)) (flag : pyval) :
  (2 <= List.length argv)%nat ->
  answers (rg (search_url (skipn 1 argv)) (Some [("limit", PInt 20)]))
          (PDict d) ->
  lookup "success" d = Some flag ->
  truthy flag = false ->
  lookup "error" d = None ->
  run py_repr rg argv
  = ([Stdout "🚀 Job Posting Aggregator - Skills Search";
      Stdout (Str.mul "=" 50);
      HttpGet (search_url (skipn 1 argv)) (Some [("limit", PInt 20)])],
     1)
  /\ snd (find_jobs_by_skills py_repr rg (skipn 1 argv) (Some 20))
     = Raise (Exc KeyError "'error'").
Proof.
  intros Hlen Ha Hs Hf He.
  assert (E : find_jobs_by_skills py_repr rg (skipn 1 argv) (Some 20)
              = ([HttpGet (search_url (skipn 1 argv))
                    (Some [("limit", PInt 20)])],
                 Raise (Exc KeyError "'error'"))).
  { destruct Ha as (resp & Hg & Hst & Hj).
    unfold find_jobs_by_skills, get, render. unfold search_url in Hg.
    rewrite Hg, bind_step, Hst, bind_lift_return, Hj, bind_lift_return.
    cbn [getitem]. rewrite Hs, bind_lift_return, Hf, He. reflexivity. }
  split; [|rewrite E; reflexivity].
  rewrite run_main, main_with_skills by exact Hlen.
  rewrite fst_prepend, snd_prepend, E. reflexivity.
Qed.

Lemma rejection_without_error_field_witness :
  run Samples.no_repr (Samples.serving (PDict [("success", PBool false)]))
    ["find-jobs-by-skill.py"; "Go"]
  = ([Stdout "🚀 Job Posting Aggregator - Skills Search";
      Stdout "==================================================";
      HttpGet "http://localhost:3000/api/jobs/skills/Go"
        (Some [("limit", PInt 20)])],
     1).
Proof.
  apply (proj1 (rejection_without_error_field Samples.no_repr
                  (Samples.serving (PDict [("success", PBool false)]))
                  ["find-jobs-by-skill.py"; "Go"]
                  [("success", PBool false)] (PBool false) ltac:(simpl; lia)
                  ltac:(eexists; repeat split; reflexivity)
                  eq_refl eq_refl eq_refl)).
Defined.

Lemma for_each_until_failure py_repr good bad rest tb e :
  print_job py_repr bad = (tb, Raise e) ->
  for_each (map Data.JobRecord_to_py good ++ bad :: rest) (print_job py_repr)
  = ((map Stdout (concat (map Render.job_block good)) ++ tb)%list, Raise e).
Proof.
  intros Hb. induction good as [|j good IH].
  - cbn [map app concat for_each]. rewrite Hb. reflexivity.
  - cbn [map app concat for_each].
    rewrite print_job_record, bind_step, IH. cbn [prepend].
    now rewrite map_app, app_assoc.
Qed.

(** X6.  The postings are printed one after the other as they are read:
    when a posting of the answer cannot be printed (a field is missing, a
    value has the wrong type), the header, the separator, the blocks of the
    postings before it and the lines of its own block printed so far are on
    the output, nothing of the postings after it is, and the exception
    leaves [find_jobs_by_skills] uncaught. *)
Theorem rendering_stops_at_malformed_posting
    py_repr rg skills limit (c : Z) (good : list Data.JobRecord)
    (bad : pyval) (rest : list pyval) tb e :
  answers (rg (search_url skills) (Some [("limit", PInt limit)]))
    (PDict [("success", PBool true); ("count", PInt c);
            ("jobs", PList (map Data.JobRecord_to_py good ++ bad :: rest))]) ->
  print_job py_repr bad = (tb, Raise e) ->
  find_jobs_by_skills py_repr rg skills (Some limit)
  = (HttpGet (search_url skills) (Some [("limit", PInt limit)])
     :: (map Stdout (Render.header c skills :: Str.mul "=" 60
                     :: concat (map Render.job_block good)) ++ tb)%list,
     Raise e).
Proof.
  intros Ha Hb.
  rewrite (find_jobs_by_skills_rendering _ _ _ _ _ Ha).
  unfold render. run_steps.
  rewrite (for_each_until_failure py_repr good bad rest tb e Hb).
  reflexivity.
Qed.

Lemma rendering_stops_at_malformed_posting_witness :
  find_jobs_by_skills Samples.no_repr
    (Samples.serving
       (PDict [("success", PBool true); ("count", PInt 3);
               ("jobs", PList [Data.JobRecord_to_py Samples.backend_job;
                               PDict [("title", PStr "Data Engineer")];
                               Data.JobRecord_to_py Samples.fullstack_job])]))
    ["Python"] (Some 20)
  = (HttpGet "http://localhost:3000/api/jobs/skills/Python"
       (Some [("limit", PInt 20)])
     :: map Stdout
          ["🎯 Found 3 jobs matching skills: Python";
           "============================================================";
           "📋 Backend Engineer";
           "🏢 Company: Acme";
           "📍 Location: Remote";
           "🔗 URL: http://x";
           "🛠️  Skills: Python, SQL";
           "📅 Posted: 2024-01-01";
           "🌐 Source: example";
           "------------------------------------------------------------";
           "📋 Data Engineer"],
     Raise (Exc KeyError "'company'")).
Proof.
  apply (rendering_stops_at_malformed_posting Samples.no_repr
           (Samples.serving
              (PDict [("success", PBool true); ("count", PInt 3);
                      ("jobs",
                       PList [Data.JobRecord_to_py Samples.backend_job;
                              PDict [("title", PStr "Data Engineer")];
                              Data.JobRecord_to_py Samples.fullstack_job])]))
           ["Python"] 20 3 [Samples.backend_job]
           (PDict [("title", PStr "Data Engineer")])
           [Data.JobRecord_to_py Samples.fullstack_job]
           [Stdout "📋 Data Engineer"] (Exc KeyError "'company'")).
  - eexists. repeat split; reflexivity.
  - reflexivity.
Defined.

(** X7.  With a true success flag, the entries are read in the order
    [count], [jobs]: a body without [count] prints nothing before the
    [KeyError]; a body with [count] and without [jobs], or whose [jobs] is
    not iterable, prints the header and the separator before the
    exception. *)
Theorem missing_count_or_jobs py_repr skills (data flag : pyval) :
  getitem data "success" = Return flag ->
  truthy flag = true ->
  (forall e,
     getitem data "count" = Raise e ->
     render py_repr skills data = ([], Raise e))
  /\ (forall c e,
        getitem data "count" = Return c ->
        getitem data "jobs" = Raise e ->
        render py_repr skills data
        = ([Stdout (header_of py_repr c skills); Stdout (Str.mul "=" 60)],
           Raise e))
  /\ (forall c v e,
        getitem data "count" = Return c ->
        getitem data "jobs" = Return v ->
        py_iter v = Raise e ->
        render py_repr skills data
        = ([Stdout (header_of py_repr c skills); Stdout (Str.mul "=" 60)],
           Raise e)).
Proof.
  intros Hs Hf. unfold render. rewrite Hs, bind_lift_return, Hf.
  split; [|split].
  - intros e Hc. rewrite Hc. reflexivity.
  - intros c e Hc Hj. rewrite Hc, bind_lift_return, !bind_print, Hj.
    reflexivity.
  - intros c v e Hc Hj Hi.
    rewrite Hc, bind_lift_return, !bind_print, Hj, bind_lift_return, Hi.
    reflexivity.
Qed.

Lemma missing_count_or_jobs_witness :
  render Samples.no_repr ["Go"] (PDict [("success", PBool true)])
  = ([], Raise (Exc KeyError "'count'"))
  /\ render Samples.no_repr ["Go"]
       (PDict [("success", PBool true); ("count", PInt 2);
               ("jobs", PInt 2)])
     = ([Stdout "🎯 Found 2 jobs matching skills: Go";
         Stdout "============================================================"],
        Raise (Exc TypeError "'int' object is not iterable")).
Proof.
  split.
  - apply (proj1 (missing_count_or_jobs Samples.no_repr ["Go"]
                    (PDict [("success", PBool true)]) (PBool true)
                    eq_refl eq_refl)).
    reflexivity.
  - apply (proj2 (proj2 (missing_count_or_jobs Samples.no_repr ["Go"]
                    (PDict [("success", PBool true); ("count", PInt 2);
                            ("jobs", PInt 2)]) (PBool true)
                    eq_refl eq_refl)) (PInt 2) (PInt 2)); reflexivity.
Defined.

(** X8.  As the success flag, the count is not checked for its type, and
    the entries of the body are found by their key: a body whose [success]
    entry is any true value, with a [count] of any type and a list of
    postings, is rendered as the header (with [str] of the count), the
    separator and the blocks, whatever other entries the body has and in
    whatever order they come. *)
Theorem truthy_success_renders_postings
    py_repr skills (data flag c : pyval) (jobs : list Data.JobRecord) :
  getitem data "success" = Return flag ->
  truthy flag = true ->
  getitem data "count" = Return c ->
  getitem data "jobs" = Return (PList (map Data.JobRecord_to_py jobs)) ->
  render py_repr skills data
  = (map Stdout (header_of py_repr c skills :: Str.mul "=" 60
                 :: concat (map Render.job_block jobs)),
     Return tt).
Proof.
  intros Hs Hf Hc Hj. unfold render.
  rewrite Hs, bind_lift_return, Hf, Hc, bind_lift_return, !bind_print, Hj,
    bind_lift_return.
  cbn [py_iter]. rewrite bind_lift_return, for_each_print_job. reflexivity.
Qed.

Lemma truthy_success_renders_postings_witness :
  render Samples.no_repr ["Go"]
    (PDict [("jobs", PList []); ("took_ms", PInt 12);
            ("count", PStr "no"); ("success", PStr "yes")])
  = ([Stdout "🎯 Found no jobs matching skills: Go";
      Stdout "============================================================"],
     Return tt).
Proof.
  apply (truthy_success_renders_postings Samples.no_repr ["Go"]
           (PDict [("jobs", PList []); ("took_ms", PInt 12);
                   ("count", PStr "no"); ("success", PStr "yes")])
           (PStr "yes") (PStr "no") []); reflexivity.
Defined.

Lemma length_append (a b : string) :
  String.length (a ++ b) = (String.length a + String.length b)%nat.
Proof. induction a as [|x a IH]; simpl; [reflexivity | now rewrite IH]. Qed.

Lemma format_2d_width k :
  (k < 20)%nat -> String.length (Str.format_2d (Z.of_nat k + 1)) = 2%nat.
Proof.
  intros H. do 20 (destruct k as [|k]; [reflexivity|]). lia.
Qed.

(** X9.  The skills of a posting are cut to five before they are joined, so
    only the first five are required to be strings: a list that holds five
    strings followed by anything else prints the five and the ellipsis
    marker and the block is completed; a value that is not a string among
    the first five stops the block after its first four lines with a
    [TypeError] that names the position and the type of the value. *)
Theorem only_first_five_skills_are_joined
    py_repr (j : Data.JobRecord) (l : list pyval) :
  (forall first5 rest,
     l = (map PStr first5 ++ rest)%list ->
     List.length first5 = 5%nat -> rest <> [] ->
     print_job py_repr (job_dict j (PList l))
     = (map Stdout
          (job_block_head j
           ++ [Render.skills_prefix ++ Str.join ", " first5 ++ Render.ellipsis;
               "📅 Posted: " ++ Data.postedDate j;
               "🌐 Source: " ++ Data.source j;
               Str.mul "-" 60]),
        Return tt))
  /\ (forall i bad,
        all_str 0 (firstn 5 l) = inl (i, bad) ->
        print_job py_repr (job_dict j (PList l))
        = (map Stdout (job_block_head j),
           Raise (Exc TypeError
                    ("sequence item " ++ Str.of_Z i
                     ++ ": expected str instance, "
                     ++ type_name bad ++ " found")))).
Proof.
  split.
  - intros first5 rest -> H5 Hrest.
    assert (Hcut : firstn 5 (map PStr first5 ++ rest) = map PStr first5).
    { rewrite firstn_app, length_map, H5, Nat.sub_diag, firstn_O, app_nil_r.
      apply firstn_all2. rewrite length_map. lia. }
    assert (Hlen : (Z.of_nat (List.length (map PStr first5 ++ rest)) >? 5)
                   = true).
    { apply Z.gtb_lt. rewrite length_app, length_map.
      destruct rest; [contradiction | simpl; lia]. }
    unfold print_job, job_dict.
    repeat first
      [ rewrite bind_lift_return
      | rewrite bind_print
      | rewrite Hcut
      | rewrite Hlen
      | rewrite py_join_strs
      | progress cbn [getitem lookup String.eqb Ascii.eqb Bool.eqb
                      slice_to py_len] ].
    reflexivity.
  - intros i bad Hbad.
    unfold print_job, job_dict.
    cbn [getitem lookup String.eqb Ascii.eqb Bool.eqb].
    rewrite !bind_lift_return, !bind_print.
    cbn [slice_to]. rewrite !bind_lift_return.
    unfold py_join. cbn [py_iter]. rewrite Hbad. reflexivity.
Qed.

Lemma only_first_five_skills_are_joined_witness :
  print_job Samples.no_repr
    (job_dict Samples.backend_job
       (PList [PStr "a"; PStr "b"; PStr "c"; PStr "d"; PStr "e"; PNone]))
  = (map Stdout
          ["📋 Backend Engineer"; "🏢 Company: Acme"; "📍 Location: Remote";
           "🔗 URL: http://x"; "🛠️  Skills: a, b, c, d, e...";
           "📅 Posted: 2024-01-01"; "🌐 Source: example";
           "------------------------------------------------------------"],
        Return tt)
  /\ print_job Samples.no_repr
       (job_dict Samples.backend_job (PList [PStr "a"; PInt 7]))
     = (map Stdout
          ["📋 Backend Engineer"; "🏢 Company: Acme"; "📍 Location: Remote";
           "🔗 URL: http://x"],
        Raise (Exc TypeError
                 "sequence item 1: expected str instance, int found")).
Proof.
  split.
  - apply (proj1 (only_first_five_skills_are_joined Samples.no_repr
                    Samples.backend_job
                    [PStr "a"; PStr "b"; PStr "c"; PStr "d"; PStr "e"; PNone])
             ["a"; "b"; "c"; "d"; "e"] [PNone]);
      [reflexivity | reflexivity | discriminate].
  - apply (proj2 (only_first_five_skills_are_joined Samples.no_repr
                    Samples.backend_job [PStr "a"; PInt 7]) 1 (PInt 7)).
    reflexivity.
Defined.

(** X10.  A catalog that is true but is no sequence is not displayed and
    not reported as missing either: when the service sends under [skills] a
    value that is true and cannot be sliced (a number, [true], an object),
    [get_available_skills] returns it as it is, the slice of line 68 raises,
    and the script ends with the status 1 after the two usage lines, the
    example line never being printed. *)
Theorem catalog_that_is_no_sequence
    py_repr rg argv (data flag v : pyval) e :
  (List.length argv < 2)%nat ->
  answers (rg catalog_url None) data ->
  getitem data "success" = Return flag ->
  truthy flag = true ->
  getitem data "skills" = Return v ->
  truthy v = true ->
  slice_to 20 v = Raise e ->
  get_available_skills rg = ([HttpGet catalog_url None], Return v)
  /\ main py_repr rg argv
     = ([Stdout Render.usage_line; Stdout Render.available_line;
         HttpGet catalog_url None], Raise e)
  /\ snd (run py_repr rg argv) = 1.
Proof.
  intros Hlen (resp & Hg & Hs & Hj) Hk Hf Hv Ht Hsl.
  assert (E : get_available_skills rg = ([HttpGet catalog_url None], Return v)).
  { rewrite get_available_skills_cases. f_equal.
    unfold fetch_catalog, get. unfold catalog_url in Hg.
    rewrite Hg, bind_step, snd_prepend, Hs, bind_lift_return, Hj,
      bind_lift_return, Hk, bind_lift_return, Hf, Hv.
    reflexivity. }
  assert (Em : main py_repr rg argv
               = ([Stdout Render.usage_line; Stdout Render.available_line;
                   HttpGet catalog_url None], Raise e)).
  { rewrite main_without_skills by exact Hlen.
    rewrite E, bind_step. unfold show_catalog. rewrite Ht, Hsl. reflexivity. }
  split; [exact E|]. split; [exact Em|].
  rewrite run_main, Em. cbn [snd].
  pose proof (no_exit_slice_to 20 v) as Hno. rewrite Hsl in Hno.
  destruct e as [c msg|code]; [reflexivity | contradiction].
Qed.

Lemma catalog_that_is_no_sequence_witness :
  run Samples.no_repr
    (Samples.serving (PDict [("success", PBool true); ("skills", PInt 42)]))
    ["find-jobs-by-skill.py"]
  = ([Stdout Render.usage_line; Stdout Render.available_line;
      HttpGet catalog_url None], 1).
Proof.
  destruct (catalog_that_is_no_sequence Samples.no_repr
              (Samples.serving
                 (PDict [("success", PBool true); ("skills", PInt 42)]))
              ["find-jobs-by-skill.py"]
              (PDict [("success", PBool true); ("skills", PInt 42)])
              (PBool true) (PInt 42)
              (Exc TypeError "'int' object is not subscriptable"))
    as (_ & Em & _).
  - simpl. lia.
  - eexists. repeat split; reflexivity.
  - reflexivity.
  - reflexivity.
  - reflexivity.
  - reflexivity.
  - reflexivity.
  - unfold run. rewrite Em. reflexivity.
Defined.

(** X11.  The numbered list of the catalog is aligned: each of the entry
    lines (there are 20 at most) is its name behind a field of six bytes,
    two spaces, the number right-aligned on two columns, a dot and a
    space. *)
Theorem catalog_entries_are_aligned
    py_repr (catalog : list string) (k : nat) (skill : string) :
  nth_error catalog k = Some skill ->
  (k < 20)%nat ->
  exists line,
    nth_error
      (stdout (fst (show_catalog py_repr (PList (map PStr catalog))))) k
    = Some line
    /\ String.length line = (6 + String.length skill)%nat
    /\ line = "  " ++ Str.format_2d (Z.of_nat k + 1) ++ ". " ++ skill.
Proof.
  intros Hk Hlt.
  exists ("  " ++ Str.format_2d (Z.of_nat k + 1) ++ ". " ++ skill).
  split; [|split; [|reflexivity]].
  - rewrite show_catalog_strs. cbn [fst]. rewrite stdout_map_Stdout.
    unfold catalog_lines.
    destruct catalog as [|x l]; [destruct k; discriminate Hk|].
    rewrite nth_error_app1.
    + unfold Render.numbered.
      rewrite nth_error_map, enumerate_nth, nth_error_firstn.
      destruct (Nat.ltb_spec k 20) as [_|Hge]; [|lia].
      rewrite Hk. cbn [option_map]. now rewrite Z.add_comm.
    + unfold Render.numbered.
      rewrite length_map, enumerate_length, length_firstn.
      assert (k < List.length (x :: l))%nat
        by (apply nth_error_Some; congruence).
      lia.
  - rewrite !length_append, (format_2d_width k Hlt). simpl. lia.
Qed.

Lemma catalog_entries_are_aligned_witness :
  exists line,
    nth_error
      (stdout (fst (show_catalog Samples.no_repr
                      (PList (map PStr ["Go"; "Rust"; "Python"]))))) 2
    = Some line
    /\ String.length line = 12%nat
    /\ line = "   3. Python".
Proof.
  destruct (catalog_entries_are_aligned Samples.no_repr
              ["Go"; "Rust"; "Python"] 2 "Python" eq_refl)
    as (line & Hn & Hl & He).
  - lia.
  - exists line. repeat split; assumption.
Defined.

(** X12.  A posting is printed as eight lines whatever its fields hold (an
    empty field leaves its label), so a successful search of N postings
    prints 2 + 8 N lines. *)
Theorem line_count_of_a_successful_search
    py_repr rg skills limit (r : Data.SearchResult) :
  Data.success r = true ->
  answers (rg (search_url skills) (Some [("limit", PInt limit)]))
          (Data.SearchResult_to_py r) ->
  List.length (stdout (fst (find_jobs_by_skills py_repr rg skills (Some limit))))
  = (2 + 8 * List.length (Data.jobs r))%nat.
Proof.
  intros Hs Ha.
  rewrite (find_jobs_by_skills_answered _ _ _ _ _ _ Ha
             (render_success py_repr skills r Hs)).
  cbn [fst stdout]. rewrite stdout_map_Stdout.
  cbn [List.length]. rewrite job_block_length. lia.
Qed.

Lemma line_count_of_a_successful_search_witness :
  List.length
    (stdout (fst (find_jobs_by_skills Samples.no_repr
                    (Samples.serving
                       (Data.SearchResult_to_py Samples.one_match))
                    ["Python"] (Some 20))))
  = 10%nat.
Proof.
  apply (line_count_of_a_successful_search Samples.no_repr
           (Samples.serving (Data.SearchResult_to_py Samples.one_match))
           ["Python"] 20 Samples.one_match).
  - reflexivity.
  - eexists. repeat split; reflexivity.
Defined.

Lemma for_each_numbered_values py_repr (l : list pyval) (start : Z) :
  for_each (enumerate l start)
    (fun '(i, skill) =>
       print ("  " ++ Str.format_2d i ++ ". " ++ py_str py_repr skill))
  = (map Stdout
       (map (fun '(i, skill) => "  " ++ Str.format_2d i ++ ". " ++ skill)
            (enumerate (map (py_str py_repr) l) start)),
     Return tt).
Proof.
  revert start. induction l as [|v l IH]; intros start; [reflexivity|].
  cbn [map enumerate for_each]. rewrite bind_print, IH. reflexivity.
Qed.

(** X13.  The display of a catalog that is a list never fails, whatever
    its entries are: each of the first 20 entries is printed as [str] gives
    it (a number, [None], a nested value), numbered from 1, the summary line
    counts the entries beyond 20, and an empty list gets the could-not-fetch
    line. *)
Theorem list_catalog_is_always_displayed py_repr (l : list pyval) :
  show_catalog py_repr (PList l)
  = (map Stdout (catalog_lines (map (py_str py_repr) l)), Return tt)
  /\ (l <> [] ->
      stdout (fst (show_catalog py_repr (PList l)))
      = (Render.numbered (map (py_str py_repr) (firstn 20 l))
         ++ Render.summary (map (py_str py_repr) l))%list).
Proof.
  assert (Hl : l <> [] ->
               catalog_lines (map (py_str py_repr) l)
               = (Render.numbered (map (py_str py_repr) (firstn 20 l))
                  ++ Render.summary (map (py_str py_repr) l))%list).
  { intros Hne. destruct l as [|x l]; [contradiction|].
    rewrite <- firstn_map. reflexivity. }
  assert (E : show_catalog py_repr (PList l)
              = (map Stdout (catalog_lines (map (py_str py_repr) l)),
                 Return tt)).
  { destruct l as [|x l]; [reflexivity|].
    rewrite Hl by discriminate.
    unfold show_catalog.
    change (truthy (PList (x :: l))) with true. cbv iota.
    cbn [slice_to]. rewrite bind_lift_return.
    cbn [py_iter]. rewrite bind_lift_return.
    rewrite for_each_numbered_values, bind_step.
    cbn [py_len]. rewrite bind_lift_return.
    unfold Render.summary, Render.numbered. rewrite length_map.
    destruct (Z.of_nat (List.length (x :: l)) >? 20).
    - rewrite bind_lift_return. cbn [prepend print py_str].
      now rewrite map_app.
    - cbn [prepend ret]. now rewrite map_app, !app_nil_r. }
  split; [exact E|].
  intros Hne. rewrite E. cbn [fst]. rewrite stdout_map_Stdout.
  exact (Hl Hne).
Qed.

Lemma list_catalog_is_always_displayed_witness :
  stdout (fst (show_catalog Samples.no_repr
                 (PList [PStr "Go"; PInt 7; PNone; PBool true])))
  = ["   1. Go"; "   2. 7"; "   3. None"; "   4. True"].
Proof.
  rewrite (proj2 (list_catalog_is_always_displayed Samples.no_repr
                    [PStr "Go"; PInt 7; PNone; PBool true]))
    by discriminate.
  reflexivity.
Defined.
